(** * koyeb-db: an expiring key-value store over HTTP (src/app.js)

    A shallow embedding of the Express application of [src/app.js] and the
    properties of its store: round trip, expiry, refresh on read, sweep,
    delete, payload validation and size accounting.

    Modelling conventions.
    - The persisted file [global.json] holds a JSON document; it is modelled
      by the value [JSON.parse] returns for it, a finite map from user ids to
      records.  [JSON.parse (JSON.stringify d) = d] on such documents, so
      [writeData] followed by [readData] is the identity on them.  A file
      that this program did not write (malformed, or with entries of another
      shape) is outside the model.
    - [data[userId]] is a property access on an ordinary object: it finds
      the own properties (the entries of the document) and, failing that,
      what [Object.prototype] provides.  [get_property], [set_property] and
      [assign_timeRemove] spell this out.
    - [Date.now()] is an input of every operation.  A request calls it twice
      (once in the sweep middleware, once in the route handler), hence the
      two clock readings of [request].
    - [express.json({ limit: '5mb' })] runs before everything else.  A
      POST request is sent with a JSON content type; it carries the length
      of its body and what the body parses to ([req.body.json], [None] when
      the field is missing), or the fact that it is no JSON text.  The
      parser refuses a body longer than its limit, then one that is not
      JSON; neither the sweep nor a handler runs then ([express_json],
      [request]).  GET requests carry no body.
    - An exception is [Throw]; Express answers it with the status the error
      carries, 500 when it carries none ([status_of]).
    - JSON numbers are integers; [JNum n] is the double that holds [n].
      Every statement that depends on how a number prints bounds the
      numbers by [MAX_SAFE_INTEGER] ([safe_numbers]), where a double holds
      every integer and [JSON.stringify] prints its digits.  Strings are
      UTF-8 byte strings, so that [Buffer.byteLength (s, 'utf8')] is the
      length of [s]. *)

From Stdlib Require Import ZArith Lia List.
From Stdlib Require Import Strings.String Strings.Ascii.
From Stdlib Require Import DecimalString.
From stdpp Require Import base option gmap strings list fin_maps.

Local Open Scope string_scope.
Local Open Scope Z_scope.

(** ** JavaScript values the program handles *)

Module JS.

(** A JSON value, as [JSON.parse] produces it. *)
#[local] Set Warnings "-register-all".
Inductive json : Type :=
  | JNull
  | JBool (b : bool)
  | JNum (n : Z)
  | JStr (s : string)
  | JArr (items : list json)
  | JObj (members : list (string * json)).

(** [!json] is [true] exactly when [truthy json] is [false]: [null],
    [false], [0] and the empty string are falsy, every object and array
    (also the empty ones) is truthy. *)
Definition truthy (v : json) : bool :=
  match v with
  | JNull => false
  | JBool b => b
  | JNum n => negb (n =? 0)
  | JStr s => negb (String.eqb s "")
  | JArr _ => true
  | JObj _ => true
  end.

Definition LF : string := String "010"%char "".
Definition DQUOTE : string := String "034"%char "".
Definition BACKSLASH : string := String "092"%char "".

Definition hex_digit (n : N) : string :=
  String (ascii_of_N (if (n <? 10)%N then 48 + n else 87 + n)%N) "".

(** One character of QuoteJSONString: the two-character escapes, [\u00xx]
    for the other control characters, the character itself otherwise. *)
Definition quote_char (c : ascii) : string :=
  let n := N_of_ascii c in
  if (n =? 8)%N then BACKSLASH ++ "b"
  else if (n =? 9)%N then BACKSLASH ++ "t"
  else if (n =? 10)%N then BACKSLASH ++ "n"
  else if (n =? 12)%N then BACKSLASH ++ "f"
  else if (n =? 13)%N then BACKSLASH ++ "r"
  else if (n =? 34)%N then BACKSLASH ++ DQUOTE
  else if (n =? 92)%N then BACKSLASH ++ BACKSLASH
  else if (n <? 32)%N then BACKSLASH ++ "u00" ++ hex_digit (n / 16) ++ hex_digit (n mod 16)
  else String c "".

Fixpoint quote_chars (s : string) : string :=
  match s with
  | EmptyString => ""
  | String c s' => quote_char c ++ quote_chars s'
  end.

Definition QuoteJSONString (s : string) : string :=
  DQUOTE ++ quote_chars s ++ DQUOTE.

(** The decimal digits of an integer, after its sign. *)
Definition decimal (n : Z) : string :=
  NilZero.string_of_int (Z.to_int n).

(** The digits without the zeros at the end. *)
Fixpoint strip_zeros (digits : string) : string :=
  match digits with
  | EmptyString => ""
  | String c rest =>
      match strip_zeros rest with
      | EmptyString => if Ascii.eqb c "0" then "" else String c ""
      | kept => String c kept
      end
  end.

(** Number::toString on an integer: its digits while it is below 1e21 in
    magnitude; from there on the significant digits with a point after the
    first one, then [e+] and the exponent. *)
Definition NumberToString (n : Z) : string :=
  if Z.abs n <? 10 ^ 21 then decimal n
  else
    let digits := decimal (Z.abs n) in
    (if n <? 0 then "-" else "")
    ++ match strip_zeros digits with
       | EmptyString => ""
       | String c EmptyString => String c ""
       | String c rest => String c ("." ++ rest)
       end
    ++ "e+" ++ decimal (Z.of_nat (String.length digits) - 1).

Fixpoint join (sep : string) (parts : list string) : string :=
  match parts with
  | [] => ""
  | [p] => p
  | p :: rest => p ++ sep ++ join sep rest
  end.

(** SerializeJSONObject and SerializeJSONArray share the wrapping of the
    serialized parts: nothing between the brackets when there is no part,
    the parts joined by commas when the gap is empty, one part per line at
    the new indentation otherwise. *)
Definition wrap (open close gap stepback indent : string) (parts : list string) : string :=
  match parts with
  | [] => open ++ close
  | _ =>
      if String.eqb gap ""
      then open ++ join "," parts ++ close
      else open ++ LF ++ indent ++ join ("," ++ LF ++ indent) parts
                ++ LF ++ stepback ++ close
  end.

(** SerializeJSONProperty, for the gap [gap] at the current indentation
    [indent]. *)
Fixpoint serialize (gap indent : string) (v : json) : string :=
  match v with
  | JNull => "null"
  | JBool true => "true"
  | JBool false => "false"
  | JNum n => NumberToString n
  | JStr s => QuoteJSONString s
  | JArr items =>
      wrap "[" "]" gap indent (indent ++ gap)
           (map (serialize gap (indent ++ gap)) items)
  | JObj members =>
      wrap "{" "}" gap indent (indent ++ gap)
           (map (fun m : string * json =>
                   QuoteJSONString (fst m)
                   ++ (if String.eqb gap "" then ":" else ": ")
                   ++ serialize gap (indent ++ gap) (snd m))
                members)
  end.

(** [JSON.stringify(v)] *)
Definition stringify (v : json) : string := serialize "" "" v.

(** [JSON.stringify(v, null, 2)] *)
Definition stringify2 (v : json) : string := serialize "  " "" v.

(** [Buffer.byteLength(s, 'utf8')] *)
Definition byteLength (s : string) : Z := Z.of_nat (String.length s).

(** [Number.MAX_SAFE_INTEGER] *)
Definition MAX_SAFE_INTEGER : Z := 2 ^ 53 - 1.

(** Every number of the value is a safe integer. *)
Fixpoint safe_numbers (v : json) : bool :=
  match v with
  | JNum n => Z.abs n <=? MAX_SAFE_INTEGER
  | JArr items => forallb safe_numbers items
  | JObj members => forallb (fun m : string * json => safe_numbers (snd m)) members
  | _ => true
  end.

(** The length of the shortest JSON literal of a safe integer: the
    significant digits, then the zeros or, when shorter, an exponent. *)
Definition shortest_literal (n : Z) : Z :=
  if n =? 0 then 1
  else
    let digits := decimal (Z.abs n) in
    let zeros := byteLength digits - byteLength (strip_zeros digits) in
    (if n <? 0 then 1 else 0)
    + byteLength (strip_zeros digits)
    + Z.min zeros (1 + byteLength (decimal zeros)).

Definition sum_with_commas (sizes : list Z) : Z :=
  match sizes with
  | [] => 0
  | _ => fold_right Z.add 0 sizes + (Z.of_nat (List.length sizes) - 1)
  end.

(** The length of the shortest JSON text that [JSON.parse] turns into the
    value: no white space, shortest number literals, the escapes of
    [QuoteJSONString] (none of which has a shorter form). *)
Fixpoint shortest_text (v : json) : Z :=
  match v with
  | JNull => 4
  | JBool true => 4
  | JBool false => 5
  | JNum n => shortest_literal n
  | JStr s => byteLength (QuoteJSONString s)
  | JArr items => 2 + sum_with_commas (map shortest_text items)
  | JObj members =>
      2 + sum_with_commas
            (map (fun m : string * json =>
                    byteLength (QuoteJSONString (fst m)) + 1 + shortest_text (snd m))
                 members)
  end.

End JS.

Import JS.

(** ** Constants of the program *)

Definition THIRTY_DAYS_MS : Z := 30 * 24 * 60 * 60 * 1000.
Definition MAX_JSON_SIZE : Z := 5 * 1024 * 1024.
Definition MAX_DB_SIZE : Z := 2 * 1024 * 1024 * 1024.

(** ** The persisted document and the process state *)

(** The object stored under a user id: [{ timeRemove, data }]. *)
Record record : Type := Record_ { timeRemove : Z; data : json }.

(** The state the program reads and writes.
    - [file] is the content of [global.json], [None] while the file does not
      exist;
    - [writes] counts the calls of [fs.writeFileSync];
    - [proto_timeRemove] is the property [timeRemove] of [Object.prototype],
      which the read handler can set (see [read_handler]). *)
Record world : Type := World {
  file : option (gmap string record);
  writes : nat;
  proto_timeRemove : option Z
}.

Definition readData (w : world) : gmap string record :=
  match file w with
  | Some d => d
  | None => ∅
  end.

Definition writeData (d : gmap string record) (w : world) : world :=
  {| file := Some d; writes := S (writes w); proto_timeRemove := proto_timeRemove w |}.

(** *** Property access on the parsed document

    [data] is an ordinary object: [data[userId]] finds an own property
    first and falls back on [Object.prototype]. *)

(** The property names every ordinary object inherits from
    [Object.prototype]. *)
Definition object_prototype_names : list string :=
  [ "constructor"; "__defineGetter__"; "__defineSetter__"; "hasOwnProperty";
    "__lookupGetter__"; "__lookupSetter__"; "isPrototypeOf";
    "propertyIsEnumerable"; "toString"; "valueOf"; "__proto__";
    "toLocaleString" ].

Definition is_builtin_name (k : string) : bool :=
  bool_decide (k ∈ object_prototype_names).

(** What [data[userId]] evaluates to. *)
Inductive jsval : Type :=
  | VUndefined
  | VRecord (r : record)      (* an own property, written by this program *)
  | VBuiltin                  (* a function or object of [Object.prototype] *)
  | VNumber (n : Z).          (* the inherited [timeRemove], once set *)

Definition get_property (w : world) (d : gmap string record) (k : string) : jsval :=
  match d !! k with
  | Some r => VRecord r
  | None =>
      if is_builtin_name k then VBuiltin
      else if String.eqb k "timeRemove" then
        match proto_timeRemove w with
        | Some n => VNumber n
        | None => VUndefined
        end
      else VUndefined
  end.

Definition ToBoolean (v : jsval) : bool :=
  match v with
  | VUndefined => false
  | VRecord _ => true
  | VBuiltin => true
  | VNumber n => negb (n =? 0)
  end.

(** [data[userId] = r]: an own property is created or updated, except that
    the name [__proto__], when not an own property, reaches the setter of
    [Object.prototype] and leaves the own properties as they are. *)
Definition set_property (d : gmap string record) (k : string) (r : record)
  : gmap string record :=
  if String.eqb k "__proto__" && bool_decide (d !! k = None)
  then d
  else <[k := r]> d.

(** [data[userId].timeRemove = t], for [data[userId]] evaluating to [v]:
    an own record is updated in place; on the inherited [__proto__] (which
    is [Object.prototype] itself) the assignment creates
    [Object.prototype.timeRemove]; on an inherited function it creates a
    property of that function, which nothing reads; on a number it does
    nothing (the module is not in strict mode). *)
Definition assign_timeRemove (w : world) (d : gmap string record) (k : string)
    (v : jsval) (t : Z) : gmap string record * world :=
  match v with
  | VRecord r => (<[k := {| timeRemove := t; data := data r |}]> d, w)
  | VBuiltin =>
      if String.eqb k "__proto__"
      then (d, {| file := file w; writes := writes w; proto_timeRemove := Some t |})
      else (d, w)
  | VNumber _ => (d, w)
  | VUndefined => (d, w)
  end.

(** [data[userId].data], for [data[userId]] evaluating to [v]; [None] is
    [undefined]. *)
Definition data_of (v : jsval) : option json :=
  match v with
  | VRecord r => Some (data r)
  | _ => None
  end.

(** ** Responses *)

Inductive body : Type :=
  | Send (text : string)            (* res.send(text) *)
  | SendJson (v : option json).     (* res.json(v), [None] for [undefined] *)

Inductive outcome : Type :=
  | Respond (status : Z) (b : body)
  | Throw (error : string).

(** ** removeInactiveUsers *)

Definition Object_keys (d : gmap string record) : list string :=
  (map_to_list d).*1.

(** One turn of the [forEach] loop over the keys; [None] is the TypeError of
    reading [timeRemove] of [undefined]. *)
Definition sweep_step (now : Z) (acc : option (gmap string record * bool))
    (userId : string) : option (gmap string record * bool) :=
  match acc with
  | None => None
  | Some (d, modified) =>
      match d !! userId with
      | Some r =>
          if timeRemove r <=? now
          then Some (delete userId d, true)
          else Some (d, modified)
      | None => None
      end
  end.

Definition removeInactiveUsers (now : Z) (w : world) : option world :=
  let d := readData w in
  match foldl (sweep_step now) (Some (d, false)) (Object_keys d) with
  | Some (d', modified) => Some (if modified then writeData d' w else w)
  | None => None
  end.

(** ** Size accounting *)

Definition record_to_json (r : record) : json :=
  JObj [("timeRemove", JNum (timeRemove r)); ("data", data r)].

(** The document [writeData] serializes.  The members are listed in the
    order of [map_to_list]; the byte size of the text does not depend on the
    order. *)
Definition document (d : gmap string record) : json :=
  JObj (map (fun kr : string * record => (fst kr, record_to_json (snd kr)))
            (map_to_list d)).

Definition file_text (d : gmap string record) : string :=
  stringify2 (document d).

(** [fs.statSync(DATA_FILE).size]; [None] when the file does not exist and
    [statSync] throws. *)
Definition getFileSizeInBytes (w : world) : option Z :=
  match file w with
  | Some d => Some (byteLength (file_text d))
  | None => None
  end.

Definition getRemainingDbSpace (usedSize : Z) : Z := MAX_DB_SIZE - usedSize.

Definition two_digits (n : Z) : string :=
  (if n <? 10 then "0" else "") ++ decimal n.

(** [(num / den).toFixed(2)] for integers [num] and [den > 0] whose quotient
    is computed exactly (here [den] is a power of two): the hundredths
    nearest to the magnitude, the larger one on a tie, after the sign. *)
Definition toFixed2 (num den : Z) : string :=
  let n := (200 * Z.abs num + den) / (2 * den) in
  (if num <? 0 then "-" else "")
  ++ decimal (n / 100) ++ "." ++ two_digits (n mod 100).

Definition dbinfo_page (usedSize remainingSize : Z) : string :=
  LF ++ "    <p>Database Size Information:</p>"
  ++ LF ++ "    <ul>"
  ++ LF ++ "      <li>Used Size: " ++ toFixed2 usedSize (1024 * 1024) ++ " MB</li>"
  ++ LF ++ "      <li>Remaining Size: " ++ toFixed2 remainingSize (1024 * 1024) ++ " MB</li>"
  ++ LF ++ "      <li>Maximum Size: " ++ toFixed2 MAX_DB_SIZE (1024 * 1024) ++ " MB</li>"
  ++ LF ++ "    </ul>"
  ++ LF ++ "  ".

(** ** Route handlers *)

(** [app.get('/dbinfo')] *)
Definition dbinfo_handler (w : world) : outcome * world :=
  match getFileSizeInBytes w with
  | None => (Throw "ENOENT", w)
  | Some usedSize =>
      let remainingSize := getRemainingDbSpace usedSize in
      (Respond 200 (Send (dbinfo_page usedSize remainingSize)), w)
  end.

(** [app.post('/write/:userId')]; [json] is [req.body.json]. *)
Definition write_handler (userId : string) (json : option json) (now : Z)
    (w : world) : outcome * world :=
  match json with
  | None => (Respond 400 (Send "Missing json body parameter"), w)
  | Some json =>
      if negb (truthy json)
      then (Respond 400 (Send "Missing json body parameter"), w)
      else
        let dataSize := byteLength (stringify json) in
        if dataSize >? MAX_JSON_SIZE
        then (Respond 400 (Send "JSON size exceeds the maximum limit of 5 MB"), w)
        else
          let d := readData w in
          let d := set_property d userId
                     {| timeRemove := now + THIRTY_DAYS_MS; data := json |} in
          (Respond 200 (Send ("Data for user " ++ userId ++ " has been written")),
           writeData d w)
  end.

(** [app.get('/read/:userId')] *)
Definition read_handler (userId : string) (now : Z) (w : world) : outcome * world :=
  let d := readData w in
  let v := get_property w d userId in
  if ToBoolean v
  then
    let '(d', w') := assign_timeRemove w d userId v (now + THIRTY_DAYS_MS) in
    (Respond 200 (SendJson (data_of v)), writeData d' w')
  else (Respond 200 (SendJson (Some (JObj []))), w).

(** [app.get('/delete/:userId')] *)
Definition delete_handler (userId : string) (w : world) : outcome * world :=
  let d := readData w in
  if ToBoolean (get_property w d userId)
  then
    (Respond 200 (Send ("Data for user " ++ userId ++ " has been deleted")),
     writeData (delete userId d) w)
  else (Respond 404 (Send ("No data found for user " ++ userId)), w).

(** ** Requests

    The requests of the store ([GET /] serves a static page and is left
    out).  A POST request has a body of [bodyLength] bytes, which is JSON
    text whose [json] field is [json], or is not JSON text at all. *)
Inductive route : Type :=
  | GET_dbinfo
  | POST_write (userId : string) (bodyLength : Z) (json : option json)
  | POST_write_malformed (userId : string) (bodyLength : Z)
  | GET_read (userId : string)
  | GET_delete (userId : string).

(** [bytes.parse('5mb')], the limit given to [express.json]. *)
Definition BODY_LIMIT : Z := 5 * 1024 * 1024.

(** [app.use(express.json({ limit: '5mb' }))]: the error the body parser
    raises, if any.  It reads the body against the limit, then parses it. *)
Definition express_json (r : route) : option string :=
  match r with
  | POST_write _ bodyLength _ =>
      if bodyLength >? BODY_LIMIT then Some "PayloadTooLargeError" else None
  | POST_write_malformed _ bodyLength =>
      if bodyLength >? BODY_LIMIT then Some "PayloadTooLargeError"
      else Some "SyntaxError"
  | _ => None
  end.

(** The handler the request is dispatched to; a body that is no JSON text
    never gets there. *)
Definition handle (r : route) (now : Z) (w : world) : outcome * world :=
  match r with
  | GET_dbinfo => dbinfo_handler w
  | POST_write userId _ json => write_handler userId json now w
  | POST_write_malformed _ _ => (Throw "SyntaxError", w)
  | GET_read userId => read_handler userId now w
  | GET_delete userId => delete_handler userId w
  end.

(** A request goes through the body parser, the sweep middleware and its
    handler, in the order of the [app.use] calls; an error of the parser
    ends it.  [t_sweep] is the clock the middleware reads, [t_handler] the
    one the handler reads. *)
Definition request (t_sweep t_handler : Z) (r : route) (w : world) : outcome * world :=
  match express_json r with
  | Some error => (Throw error, w)
  | None =>
      match removeInactiveUsers t_sweep w with
      | None => (Throw "TypeError", w)
      | Some w1 => handle r t_handler w1
      end
  end.


(** The state of a fresh deployment: no file, nothing written. *)
Definition initial : world :=
  {| file := None; writes := 0; proto_timeRemove := None |}.

(** * Notions used in the statements *)

(** The records that are still live at [now]. *)
Definition live (now : Z) (d : gmap string record) : gmap string record :=
  filter (fun kr : string * record => now < timeRemove (snd kr)) d.

(** What the sweep keeps of one entry. *)
Definition keep (now : Z) (r : record) : option record :=
  if timeRemove r <=? now then None else Some r.

(** Some record of [d] has expired at [now]. *)
Definition has_expired (now : Z) (d : gmap string record) : Prop :=
  ∃ k r, d !! k = Some r ∧ timeRemove r <= now.

(** [k] names nothing that [Object.prototype] provides in state [w]. *)
Definition plain_name (w : world) (k : string) : Prop :=
  is_builtin_name k = false ∧ (k = "timeRemove" → proto_timeRemove w = None).

(** The least length of a body that carries the payload: the object
    [{"json":...}] around its shortest text, or the empty object. *)
Definition body_min (json : option json) : Z :=
  match json with
  | Some v => 9 + shortest_text v
  | None => 2
  end.

(** Payloads of a chosen size.  The safe integer [9e15] takes four bytes in
    a request body and sixteen in the output of [JSON.stringify], so an
    array of such numbers passes the limit of the body parser while its
    serialization is more than three times as long. *)
Definition number_array (n : Z) (last : Z) : json :=
  JArr (repeat (JNum (9 * 10 ^ 15)) (Z.to_nat n) ++ [JNum last]).

(** [g] records, for each key, the time of its most recent accepted write
    or successful read.  A write is accepted when it is answered 200; a read
    is successful when the key has a record in the document. *)
Definition note_access (r : route) (now : Z) (w : world) (g : gmap string Z)
  : gmap string Z :=
  match r with
  | POST_write k _ json =>
      match fst (write_handler k json now w) with
      | Respond 200 _ => <[k := now]> g
      | _ => g
      end
  | GET_read k =>
      match readData w !! k with
      | Some _ => <[k := now]> g
      | None => g
      end
  | POST_write_malformed _ _ => g
  | GET_delete _ => g
  | GET_dbinfo => g
  end.

(** Every record of the document expires [THIRTY_DAYS_MS] after the last
    access that [g] records for its key. *)
Definition expiry_invariant (w : world) (g : gmap string Z) : Prop :=
  ∀ k r, readData w !! k = Some r →
         ∃ t, g !! k = Some t ∧ timeRemove r = t + THIRTY_DAYS_MS.

(** Requests run one after the other, with the log of accesses kept
    alongside. *)
Fixpoint run (reqs : list (Z * Z * route)) (w : world) (g : gmap string Z)
  : world * gmap string Z :=
  match reqs with
  | [] => (w, g)
  | (ts, th, r) :: rest =>
      match express_json r, removeInactiveUsers ts w with
      | None, Some w1 => run rest (snd (handle r th w1)) (note_access r th w1 g)
      | _, _ => run rest w g
      end
  end.

(** The key a request is about, if any. *)
Definition route_key (r : route) : option string :=
  match r with
  | GET_dbinfo => None
  | POST_write k _ _ => Some k
  | POST_write_malformed k _ => Some k
  | GET_read k => Some k
  | GET_delete k => Some k
  end.

(** Every stored value passed the checks of the write handler. *)
Definition stored_values_valid (w : world) : Prop :=
  ∀ k r, readData w !! k = Some r →
         truthy (data r) = true
         ∧ safe_numbers (data r) = true
         ∧ byteLength (stringify (data r)) <= MAX_JSON_SIZE.

(** The numbers a request carries are safe integers. *)
Definition safe_route (r : route) : bool :=
  match r with
  | POST_write _ _ (Some v) => safe_numbers v
  | _ => true
  end.

(** * Properties *)

(** ** Serialization examples *)

Example stringify_ex1 :
  stringify (JObj [("a", JNum 1); ("b", JArr [JBool true; JNull; JStr "x"])])
  = "{" ++ DQUOTE ++ "a" ++ DQUOTE ++ ":1," ++ DQUOTE ++ "b" ++ DQUOTE
    ++ ":[true,null," ++ DQUOTE ++ "x" ++ DQUOTE ++ "]}".
Proof. reflexivity. Qed.

Example NumberToString_examples :
  NumberToString 0 = "0"
  ∧ NumberToString (-42) = "-42"
  ∧ NumberToString (9 * 10 ^ 15) = "9000000000000000"
  ∧ NumberToString (10 ^ 20) = "100000000000000000000"
  ∧ NumberToString (10 ^ 21) = "1e+21"
  ∧ NumberToString (-12 * 10 ^ 20) = "-1.2e+21".
Proof. repeat split. Qed.

Example shortest_literal_examples :
  shortest_literal 0 = 1
  ∧ shortest_literal 7 = 1
  ∧ shortest_literal 100 = 3
  ∧ shortest_literal (-5000) = 4
  ∧ shortest_literal (9 * 10 ^ 15) = 4
  ∧ body_min (Some (JObj [("a", JNum 1)])) = 16
  ∧ body_min (Some (JStr "v")) = 12
  ∧ body_min (Some JNull) = 13.
Proof. repeat split. Qed.

(** ** The sweep *)

Section sweep.

Context (now : Z).

Lemma live_lookup d k : live now d !! k = d !! k ≫= keep now.
Proof.
  unfold live, keep. destruct (d !! k) as [r|] eqn:E; simpl.
  - destruct (Z.leb_spec (timeRemove r) now).
    + apply map_lookup_filter_None. right. intros r' Hr'. simpl.
      rewrite E in Hr'. injection Hr' as <-. lia.
    + apply map_lookup_filter_Some. split; [done|]. simpl. lia.
  - apply map_lookup_filter_None. by left.
Qed.

Lemma sweep_loop l : ∀ (d : gmap string record) (m : bool),
  NoDup l → (∀ k, k ∈ l → is_Some (d !! k)) →
  ∃ d' m', foldl (sweep_step now) (Some (d, m)) l = Some (d', m')
    ∧ (∀ k, d' !! k = if decide (k ∈ l) then d !! k ≫= keep now else d !! k)
    ∧ (m' = true ↔ m = true ∨ ∃ k r, k ∈ l ∧ d !! k = Some r ∧ timeRemove r <= now).
Proof.
  induction l as [|a l IH]; intros d m Hnd Hin.
  - exists d, m. split; [done|]. split.
    + intros k. case_decide as Hk; [by apply elem_of_nil in Hk | done].
    + split; [by left|]. intros [H|(k & r & Hk & _)]; [done|]. by apply elem_of_nil in Hk.
  - apply NoDup_cons in Hnd as [Ha Hnd].
    destruct (Hin a) as [r Hr]; [by left|].
    simpl. rewrite Hr.
    destruct (Z.leb_spec (timeRemove r) now) as [Hexp|Hlive].
    + destruct (IH (delete a d) true Hnd) as (d' & m' & Hrun & Hd' & Hm').
      { intros k Hk. rewrite lookup_delete_ne; [|by intros ->].
        apply Hin. by right. }
      exists d', m'. split; [done|]. split.
      * intros k. rewrite Hd'. destruct (decide (k = a)) as [->|Hne].
        -- rewrite decide_False by done. rewrite decide_True by (by left).
           rewrite lookup_delete_eq, Hr. simpl. unfold keep.
           by rewrite (proj2 (Z.leb_le _ _) Hexp).
        -- rewrite lookup_delete_ne by done.
           destruct (decide (k ∈ l)) as [Hk|Hk].
           ++ by rewrite decide_True by (by right).
           ++ rewrite decide_False; [done|]. by intros [?|?]%elem_of_cons.
      * split; [|intros _; apply Hm'; by left].
        intros _. right. exists a, r. split; [by left|done].
    + destruct (IH d m Hnd) as (d' & m' & Hrun & Hd' & Hm').
      { intros k Hk. apply Hin. by right. }
      exists d', m'. split; [done|]. split.
      * intros k. rewrite Hd'. destruct (decide (k = a)) as [->|Hne].
        -- rewrite decide_False by done. rewrite decide_True by (by left).
           rewrite Hr. simpl. unfold keep.
           by rewrite (proj2 (Z.leb_gt _ _) Hlive).
        -- destruct (decide (k ∈ l)) as [Hk|Hk].
           ++ by rewrite decide_True by (by right).
           ++ rewrite decide_False; [done|]. by intros [?|?]%elem_of_cons.
      * rewrite Hm'. split.
        -- intros [?|(k & r' & Hk & Hkr & Hle)]; [by left|].
           right. exists k, r'. split; [by right|done].
        -- intros [?|(k & r' & Hk & Hkr & Hle)]; [by left|].
           apply elem_of_cons in Hk as [->|Hk].
           ++ rewrite Hr in Hkr. injection Hkr as <-. lia.
           ++ right. by exists k, r'.
Qed.

Lemma elem_of_Object_keys (d : gmap string record) k :
  k ∈ Object_keys d ↔ is_Some (d !! k).
Proof.
  unfold Object_keys. rewrite list_elem_of_fmap. split.
  - intros ([k' r] & -> & H%elem_of_map_to_list). by exists r.
  - intros [r Hr]. exists (k, r). split; [done|]. by apply elem_of_map_to_list.
Qed.

(** The loop of [removeInactiveUsers] never meets a missing entry; it yields
    the live records, and sets [modified] exactly when a record expired. *)
Lemma sweep_run (d : gmap string record) :
  ∃ m', foldl (sweep_step now) (Some (d, false)) (Object_keys d) = Some (live now d, m')
    ∧ (m' = true ↔ ∃ k r, d !! k = Some r ∧ timeRemove r <= now).
Proof.
  destruct (sweep_loop (Object_keys d) d false) as (d' & m' & Hrun & Hd' & Hm').
  { apply NoDup_fst_map_to_list. }
  { intros k. apply elem_of_Object_keys. }
  exists m'. split.
  - rewrite Hrun. do 2 f_equal. apply map_eq. intros k.
    rewrite Hd', live_lookup. case_decide as Hk; [done|].
    rewrite elem_of_Object_keys in Hk.
    destruct (d !! k) eqn:E; [|done]. exfalso. apply Hk. by eexists.
  - rewrite Hm'. split.
    + intros [?|(k & r & _ & ?)]; [done|]. by exists k, r.
    + intros (k & r & Hkr & Hle). right. exists k, r.
      split; [|done]. apply elem_of_Object_keys. by eexists.
Qed.

Lemma live_id (d : gmap string record) : ¬ has_expired now d → live now d = d.
Proof.
  intros Hno. apply map_eq. intros k. rewrite live_lookup.
  destruct (d !! k) as [r|] eqn:E; [|done]. simpl. unfold keep.
  destruct (Z.leb_spec (timeRemove r) now); [|done].
  exfalso. apply Hno. by exists k, r.
Qed.

Lemma removeInactiveUsers_expired w :
  has_expired now (readData w) →
  removeInactiveUsers now w = Some (writeData (live now (readData w)) w).
Proof.
  intros Hex. unfold removeInactiveUsers.
  destruct (sweep_run (readData w)) as (m' & -> & Hm').
  apply Hm' in Hex. by rewrite Hex.
Qed.

Lemma removeInactiveUsers_fresh w :
  ¬ has_expired now (readData w) → removeInactiveUsers now w = Some w.
Proof.
  intros Hno. unfold removeInactiveUsers.
  destruct (sweep_run (readData w)) as (m' & -> & Hm').
  destruct m'; [|done]. exfalso. by apply Hno, Hm'.
Qed.

Lemma has_expired_dec (d : gmap string record) :
  has_expired now d ∨ ¬ has_expired now d.
Proof.
  destruct (sweep_run d) as ([|] & _ & Hm').
  - left. by apply Hm'.
  - right. intros H. by apply Hm' in H.
Qed.

(** The sweep always returns, and the document it leaves holds the live
    records. *)
Lemma removeInactiveUsers_total w :
  ∃ w', removeInactiveUsers now w = Some w'
    ∧ readData w' = live now (readData w)
    ∧ proto_timeRemove w' = proto_timeRemove w.
Proof.
  destruct (has_expired_dec (readData w)) as [Hex|Hno].
  - eexists. split; [by apply removeInactiveUsers_expired|]. done.
  - exists w. split; [by apply removeInactiveUsers_fresh|].
    by rewrite live_id.
Qed.

(** C4. For every state and every time [now], the sweep returns and removes
    exactly the records whose [timeRemove] is at most [now] (a record whose
    expiry equals [now] is removed: only those with [now < timeRemove]
    stay); it calls [writeData] if and only if at least one record was
    removed, and then once, with the live records; when nothing has expired
    the state, with the persisted document, is left as it was. *)
Theorem removeInactiveUsers_spec (w : world) :
  ∃ w', removeInactiveUsers now w = Some w'
    ∧ (∀ k r, readData w' !! k = Some r
              ↔ readData w !! k = Some r ∧ now < timeRemove r)
    ∧ (∀ k r, readData w !! k = Some r → timeRemove r <= now →
              readData w' !! k = None)
    ∧ (writes w' ≠ writes w ↔ has_expired now (readData w))
    ∧ (has_expired now (readData w) →
         file w' = Some (live now (readData w)) ∧ writes w' = S (writes w))
    ∧ (¬ has_expired now (readData w) → w' = w).
Proof.
  assert (Hlook : ∀ w', readData w' = live now (readData w) →
    (∀ k r, readData w' !! k = Some r
            ↔ readData w !! k = Some r ∧ now < timeRemove r)
    ∧ (∀ k r, readData w !! k = Some r → timeRemove r <= now →
              readData w' !! k = None)).
  { intros w' ->. split.
    - intros k r. rewrite live_lookup. unfold keep.
      destruct (readData w !! k) as [r'|]; simpl; [|by split; [|intros []]].
      destruct (Z.leb_spec (timeRemove r') now); split; try done.
      + intros [[= ->] ?]. lia.
      + intros [= ->]. done.
      + by intros [-> _].
    - intros k r Hr Hle. rewrite live_lookup, Hr. simpl. unfold keep.
      by rewrite (proj2 (Z.leb_le _ _) Hle). }
  destruct (has_expired_dec (readData w)) as [Hex|Hno].
  - exists (writeData (live now (readData w)) w).
    split; [by apply removeInactiveUsers_expired|].
    destruct (Hlook (writeData (live now (readData w)) w) eq_refl) as [H1 H2].
    split; [exact H1|]. split; [exact H2|].
    split; [|done]. simpl. split; [done|lia].
  - exists w. split; [by apply removeInactiveUsers_fresh|].
    destruct (Hlook w) as [H1 H2]; [by rewrite live_id|].
    split; [exact H1|]. split; [exact H2|].
    split; [|done]. split; [done|]. intros Hex. by destruct (Hno Hex).
Qed.

End sweep.

(** ** Serialized sizes *)

Lemma length_app (s1 s2 : string) :
  String.length (s1 ++ s2) = (String.length s1 + String.length s2)%nat.
Proof. induction s1 as [|c s1 IH]; simpl; [done|]. by rewrite IH. Qed.

Lemma byteLength_app (s1 s2 : string) :
  byteLength (s1 ++ s2) = byteLength s1 + byteLength s2.
Proof. unfold byteLength. rewrite length_app. lia. Qed.

Lemma stringify_JStr s : stringify (JStr s) = QuoteJSONString s.
Proof. reflexivity. Qed.

(** The body [{"json": v}] that carries a payload [v] serializes to nine
    bytes more than the payload. *)
Lemma byteLength_wrapper (v : json) :
  byteLength (stringify (JObj [("json", v)])) = byteLength (stringify v) + 9.
Proof.
  unfold stringify. cbn [serialize map wrap join fst snd String.eqb].
  rewrite !byteLength_app. cbn [String.append].
  change (byteLength (QuoteJSONString "json")) with 6.
  change (byteLength "{") with 1. change (byteLength "}") with 1.
  change (byteLength ":") with 1. change ("" ++ "") with "". lia.
Qed.

(** The falsy JSON values are [null], [false], [0] and the empty string. *)
Lemma falsy_values (v : json) :
  truthy v = false ↔ v = JNull ∨ v = JBool false ∨ v = JNum 0 ∨ v = JStr "".
Proof.
  split.
  - destruct v as [|[|]|n|s|l|l]; simpl; try done; auto.
    + intros H%negb_false_iff%Z.eqb_eq. subst. auto.
    + intros H%negb_false_iff%String.eqb_eq. subst. auto.
  - intros [-> | [-> | [-> | ->] ] ]; reflexivity.
Qed.


Lemma join_cons sep p x xs :
  join sep (p :: x :: xs) = p ++ sep ++ join sep (x :: xs).
Proof. reflexivity. Qed.

Lemma byteLength_join_repeat (p q : string) (n : nat) :
  byteLength (join "," (repeat p n ++ [q]))
  = Z.of_nat n * (byteLength p + 1) + byteLength q.
Proof.
  induction n as [|n IH]; [simpl; lia|].
  change (repeat p (S n) ++ [q])%list with (p :: (repeat p n ++ [q]))%list.
  destruct (repeat p n ++ [q])%list as [|x xs] eqn:E.
  - by destruct n.
  - rewrite join_cons, !byteLength_app, IH.
    change (byteLength ",") with 1. lia.
Qed.

Lemma stringify_JArr items :
  items ≠ [] →
  stringify (JArr items) = "[" ++ join "," (map stringify items) ++ "]".
Proof. intros H. by destruct items. Qed.

Lemma byteLength_number_array (n last : Z) :
  0 <= n →
  byteLength (stringify (number_array n last))
  = 17 * n + byteLength (NumberToString last) + 2.
Proof.
  intros Hn. unfold number_array. rewrite stringify_JArr by (by destruct (repeat _ _)).
  rewrite map_app, map_repeat, !byteLength_app. cbn [map].
  rewrite byteLength_join_repeat.
  change (byteLength (stringify (JNum (9 * 10 ^ 15)))) with 16.
  change (byteLength "[") with 1. change (byteLength "]") with 1.
  change (stringify (JNum last)) with (NumberToString last).
  rewrite Z2Nat.id by done. lia.
Qed.

Lemma safe_number_array (n last : Z) :
  Z.abs last <= MAX_SAFE_INTEGER → safe_numbers (number_array n last) = true.
Proof.
  intros Hl. unfold number_array. cbn [safe_numbers]. rewrite forallb_app.
  apply andb_true_intro. split.
  - induction (Z.to_nat n) as [|m IH]; [done|]. cbn [repeat forallb]. by rewrite IH.
  - cbn [forallb safe_numbers]. by rewrite (proj2 (Z.leb_le _ _) Hl).
Qed.





(** An array of 308404 numbers [9e15] and one more number of ten digits
    serializes to exactly [MAX_JSON_SIZE] bytes; with eleven digits, to one
    byte more.  The third array is well over the limit.  The bodies that
    carry them, numbers written with exponents, are within [BODY_LIMIT]. *)
Lemma byteLength_boundary :
  byteLength (stringify (number_array 308404 (10 ^ 9))) = 5242880
  ∧ byteLength (stringify (number_array 308404 (10 ^ 10))) = 5242881
  ∧ byteLength (stringify (number_array 310000 7)) = 5270003.
Proof.
  rewrite !byteLength_number_array by lia.
  change (byteLength (NumberToString (10 ^ 9))) with 10.
  change (byteLength (NumberToString (10 ^ 10))) with 11.
  change (byteLength (NumberToString 7)) with 1. lia.
Qed.


(** ** The write handler *)

Lemma write_handler_missing userId now w :
  write_handler userId None now w
  = (Respond 400 (Send "Missing json body parameter"), w).
Proof. reflexivity. Qed.

Lemma write_handler_falsy userId json now w :
  truthy json = false →
  write_handler userId (Some json) now w
  = (Respond 400 (Send "Missing json body parameter"), w).
Proof. intros H. unfold write_handler. by rewrite H. Qed.

Lemma write_handler_too_large userId json now w :
  truthy json = true →
  MAX_JSON_SIZE < byteLength (stringify json) →
  write_handler userId (Some json) now w
  = (Respond 400 (Send "JSON size exceeds the maximum limit of 5 MB"), w).
Proof.
  intros Ht Hs. unfold write_handler. rewrite Ht. simpl negb. cbv iota.
  by rewrite (proj2 (Z.gtb_gt _ _)) by lia.
Qed.

Lemma write_handler_accepted userId json now w :
  truthy json = true →
  byteLength (stringify json) <= MAX_JSON_SIZE →
  write_handler userId (Some json) now w
  = (Respond 200 (Send ("Data for user " ++ userId ++ " has been written")),
     writeData (set_property (readData w) userId
                  {| timeRemove := now + THIRTY_DAYS_MS; data := json |}) w).
Proof.
  intros Ht Hs. unfold write_handler. rewrite Ht. simpl negb. cbv iota.
  destruct (Z.gtb_spec (byteLength (stringify json)) MAX_JSON_SIZE); [lia|done].
Qed.


(** C9. A write whose [json] field is present but falsy ([null], [false],
    [0] or the empty string, which are all the falsy JSON values) is
    answered 400 "Missing json body parameter", exactly as a write without
    the field, and leaves the state unchanged; the empty object is accepted
    and stored. *)
Theorem write_falsy_as_missing (userId : string) (now : Z) (w : world) :
  write_handler userId None now w
    = (Respond 400 (Send "Missing json body parameter"), w)
  ∧ write_handler userId (Some JNull) now w = write_handler userId None now w
  ∧ write_handler userId (Some (JBool false)) now w = write_handler userId None now w
  ∧ write_handler userId (Some (JNum 0)) now w = write_handler userId None now w
  ∧ write_handler userId (Some (JStr "")) now w = write_handler userId None now w
  ∧ (∀ json, truthy json = false ↔
       json = JNull ∨ json = JBool false ∨ json = JNum 0 ∨ json = JStr "")
  ∧ write_handler userId (Some (JObj [])) now w
    = (Respond 200 (Send ("Data for user " ++ userId ++ " has been written")),
       writeData (set_property (readData w) userId
                    {| timeRemove := now + THIRTY_DAYS_MS; data := JObj [] |}) w).
Proof.
  repeat split; try reflexivity; apply falsy_values.
Qed.

(** C10. The size check of the write handler looks at the byte length of
    the serialized [json] value alone: a truthy payload (its numbers safe
    integers) is stored exactly when that length is at most 5242880 and
    refused with the size message exactly when it is 5242881 or more (the
    comparison is strict), whereas the object [{"json": ...}] around it
    serializes to nine bytes more. *)
Theorem write_size_check_inner_strict (userId : string) (json : json) (now : Z)
    (w : world) :
  truthy json = true →
  safe_numbers json = true →
  (fst (write_handler userId (Some json) now w)
     = Respond 200 (Send ("Data for user " ++ userId ++ " has been written"))
   ↔ byteLength (stringify json) <= 5242880)
  ∧ (fst (write_handler userId (Some json) now w)
       = Respond 400 (Send "JSON size exceeds the maximum limit of 5 MB")
     ↔ 5242881 <= byteLength (stringify json))
  ∧ byteLength (stringify (JObj [("json", json)])) = byteLength (stringify json) + 9.
Proof.
  intros Ht _. split; [|split; [|apply byteLength_wrapper]].
  - split.
    + intros H. destruct (Z.le_gt_cases (byteLength (stringify json)) 5242880) as [|Hgt]; [done|].
      rewrite write_handler_too_large in H by (done || (unfold MAX_JSON_SIZE; lia)).
      discriminate H.
    + intros H. by rewrite write_handler_accepted by (done || (unfold MAX_JSON_SIZE; lia)).
  - split.
    + intros H. destruct (Z.le_gt_cases 5242881 (byteLength (stringify json))) as [|Hlt]; [done|].
      rewrite write_handler_accepted in H by (done || (unfold MAX_JSON_SIZE; lia)).
      discriminate H.
    + intros H. by rewrite write_handler_too_large by (done || (unfold MAX_JSON_SIZE; lia)).
Qed.

(** A payload that serializes to exactly 5242880 bytes is accepted,
    although the object [{"json": ...}] around it serializes to 5242889. *)
Lemma write_size_check_inner_strict_witness :
  truthy (number_array 308404 (10 ^ 9)) = true
  ∧ safe_numbers (number_array 308404 (10 ^ 9)) = true
  ∧ byteLength (stringify (number_array 308404 (10 ^ 9))) = 5242880
  ∧ byteLength (stringify (JObj [("json", number_array 308404 (10 ^ 9))])) = 5242889
  ∧ fst (write_handler "u1" (Some (number_array 308404 (10 ^ 9))) 0 initial)
    = Respond 200 (Send "Data for user u1 has been written").
Proof.
  pose proof (proj1 byteLength_boundary) as Hs.
  assert (Hsafe : safe_numbers (number_array 308404 (10 ^ 9)) = true)
    by (apply safe_number_array; vm_compute; discriminate).
  destruct (write_size_check_inner_strict "u1" (number_array 308404 (10 ^ 9)) 0
              initial eq_refl Hsafe) as (Hacc & _ & Hwrap).
  split; [reflexivity|]. split; [exact Hsafe|]. split; [exact Hs|]. split; [lia|].
  apply Hacc. lia.
Defined.

(** A payload of 5242881 bytes is refused. *)
Example write_5242881_bytes_refused :
  byteLength (stringify (number_array 308404 (10 ^ 10))) = 5242881
  ∧ write_handler "u1" (Some (number_array 308404 (10 ^ 10))) 0 initial
    = (Respond 400 (Send "JSON size exceeds the maximum limit of 5 MB"), initial).
Proof.
  pose proof (proj1 (proj2 byteLength_boundary)) as Hs.
  split; [exact Hs|]. apply write_handler_too_large; [reflexivity|].
  unfold MAX_JSON_SIZE. lia.
Qed.

(** ** Property lookups *)

Lemma get_property_own w (d : gmap string record) k r :
  d !! k = Some r → get_property w d k = VRecord r.
Proof. intros H. unfold get_property. by rewrite H. Qed.

Lemma get_property_plain w (d : gmap string record) k :
  d !! k = None → plain_name w k → get_property w d k = VUndefined.
Proof.
  intros H [Hb Ht]. unfold get_property. rewrite H, Hb.
  destruct (String.eqb_spec k "timeRemove") as [->|]; [|done].
  by rewrite Ht.
Qed.


(** ** The read and delete handlers *)

Lemma read_handler_own k now w r :
  readData w !! k = Some r →
  read_handler k now w
  = (Respond 200 (SendJson (Some (data r))),
     writeData (<[k := {| timeRemove := now + THIRTY_DAYS_MS; data := data r |}]>
                  (readData w)) w).
Proof.
  intros H. unfold read_handler. by rewrite (get_property_own _ _ _ _ H).
Qed.

Lemma read_handler_absent k now w :
  readData w !! k = None → plain_name w k →
  read_handler k now w = (Respond 200 (SendJson (Some (JObj []))), w).
Proof.
  intros H Hp. unfold read_handler. by rewrite (get_property_plain _ _ _ H Hp).
Qed.

Lemma delete_handler_own k w r :
  readData w !! k = Some r →
  delete_handler k w
  = (Respond 200 (Send ("Data for user " ++ k ++ " has been deleted")),
     writeData (delete k (readData w)) w).
Proof.
  intros H. unfold delete_handler. by rewrite (get_property_own _ _ _ _ H).
Qed.

Lemma delete_handler_absent k w :
  readData w !! k = None → plain_name w k →
  delete_handler k w = (Respond 404 (Send ("No data found for user " ++ k)), w).
Proof.
  intros H Hp. unfold delete_handler. by rewrite (get_property_plain _ _ _ H Hp).
Qed.

(** ** Requests *)

Lemma request_handle ts th r w :
  express_json r = None →
  ∃ w1, removeInactiveUsers ts w = Some w1
    ∧ readData w1 = live ts (readData w)
    ∧ proto_timeRemove w1 = proto_timeRemove w
    ∧ request ts th r w = handle r th w1.
Proof.
  intros Hp0. destruct (removeInactiveUsers_total ts w) as (w1 & Hs & Hd & Hp).
  exists w1. unfold request. by rewrite Hp0, Hs.
Qed.

Lemma request_refused_by_parser ts th r w error :
  express_json r = Some error → request ts th r w = (Throw error, w).
Proof. intros H. unfold request. by rewrite H. Qed.


Lemma request_fresh ts th r w :
  express_json r = None →
  ¬ has_expired ts (readData w) → request ts th r w = handle r th w.
Proof. intros Hp H. unfold request. by rewrite Hp, removeInactiveUsers_fresh. Qed.



Lemma live_lookup_Some now (d : gmap string record) k r :
  d !! k = Some r → now < timeRemove r → live now d !! k = Some r.
Proof.
  intros H Hlt. rewrite live_lookup, H. simpl. unfold keep.
  by rewrite (proj2 (Z.leb_gt _ _) Hlt).
Qed.

Lemma live_lookup_expired now (d : gmap string record) k r :
  d !! k = Some r → timeRemove r <= now → live now d !! k = None.
Proof.
  intros H Hle. rewrite live_lookup, H. simpl. unfold keep.
  by rewrite (proj2 (Z.leb_le _ _) Hle).
Qed.

(** A read request for a record that is live when the middleware runs
    returns its value and resets its expiry from the handler's clock. *)
Lemma request_read_live k r ts th w :
  readData w !! k = Some r → ts < timeRemove r →
  ∃ w1, request ts th (GET_read k) w = (Respond 200 (SendJson (Some (data r))), w1)
    ∧ readData w1 !! k = Some {| timeRemove := th + THIRTY_DAYS_MS; data := data r |}.
Proof.
  intros Hk Hlt.
  destruct (request_handle ts th (GET_read k) w eq_refl) as (w1 & _ & Hd & _ & ->).
  simpl. erewrite read_handler_own; [|by rewrite Hd; apply live_lookup_Some].
  eexists. split; [done|]. simpl. apply lookup_insert_eq.
Qed.

(** ** Oversize writes *)




(** ** Round trip *)



(** The key [__proto__] does not come back either: the write is answered
    200 but the assignment reaches the setter of [Object.prototype] and the
    document stays empty; the read finds [Object.prototype] itself and calls
    [res.json] with [undefined]. *)
Example roundtrip_proto_key :
  request 0 0 (POST_write "__proto__" 16 (Some (JObj [("a", JNum 1)]))) initial
    = (Respond 200 (Send "Data for user __proto__ has been written"),
       {| file := Some ∅; writes := 1; proto_timeRemove := None |})
  ∧ request 1 1 (GET_read "__proto__")
      {| file := Some ∅; writes := 1; proto_timeRemove := None |}
    = (Respond 200 (SendJson None),
       {| file := Some ∅; writes := 2;
          proto_timeRemove := Some (1 + THIRTY_DAYS_MS) |}).
Proof. split; reflexivity. Qed.



(** ** Refresh on read *)

(** C3. A read request for a record that has not expired when the request
    is swept returns the value and resets the record's expiry to the read
    time plus [THIRTY_DAYS_MS]; every later read swept before that new
    expiry still returns the value, in particular the one at
    [writeTime + THIRTY_DAYS_MS + 1], past the expiry the write had set,
    when the refreshing read came later than [writeTime + 1]. *)
Theorem read_refreshes_expiry (k : string) (r : record) (ts th : Z) (w : world) :
  readData w !! k = Some r →
  ts < timeRemove r →
  ∃ w1,
    request ts th (GET_read k) w = (Respond 200 (SendJson (Some (data r))), w1)
    ∧ readData w1 !! k
      = Some {| timeRemove := th + THIRTY_DAYS_MS; data := data r |}
    ∧ (∀ ts2 th2, ts2 < th + THIRTY_DAYS_MS →
         fst (request ts2 th2 (GET_read k) w1)
         = Respond 200 (SendJson (Some (data r))))
    ∧ (∀ writeTime th2,
         timeRemove r = writeTime + THIRTY_DAYS_MS → writeTime + 1 < th →
         fst (request (writeTime + THIRTY_DAYS_MS + 1) th2 (GET_read k) w1)
         = Respond 200 (SendJson (Some (data r)))).
Proof.
  intros Hk Hlt.
  destruct (request_read_live k r ts th w Hk Hlt) as (w1 & Hreq & Hk1).
  exists w1. split; [done|]. split; [done|].
  assert (Hlater : ∀ ts2 th2, ts2 < th + THIRTY_DAYS_MS →
            fst (request ts2 th2 (GET_read k) w1)
            = Respond 200 (SendJson (Some (data r)))).
  { intros ts2 th2 H2.
    destruct (request_read_live k _ ts2 th2 w1 Hk1 H2) as (w2 & -> & _). done. }
  split; [done|]. intros writeTime th2 _ Hth. apply Hlater. lia.
Qed.

Lemma read_refreshes_expiry_witness :
  ∃ w1,
    request 10 10 (GET_read "u1")
      (snd (request 0 0 (POST_write "u1" 12 (Some (JStr "v"))) initial))
    = (Respond 200 (SendJson (Some (JStr "v"))), w1)
    ∧ readData w1 !! "u1"
      = Some {| timeRemove := 10 + THIRTY_DAYS_MS; data := JStr "v" |}
    ∧ fst (request (0 + THIRTY_DAYS_MS + 1) (0 + THIRTY_DAYS_MS + 1) (GET_read "u1") w1)
      = Respond 200 (SendJson (Some (JStr "v"))).
Proof.
  destruct (read_refreshes_expiry "u1"
              {| timeRemove := 0 + THIRTY_DAYS_MS; data := JStr "v" |} 10 10
              (snd (request 0 0 (POST_write "u1" 12 (Some (JStr "v"))) initial)))
    as (w1 & H1 & H2 & _ & H4).
  - reflexivity.
  - vm_compute. reflexivity.
  - exists w1. split; [exact H1|]. split; [exact H2|].
    apply (H4 0 (0 + THIRTY_DAYS_MS + 1)); [reflexivity | lia].
Defined.

(** Without the refreshing read, the same late read finds nothing. *)
Example read_after_original_expiry :
  fst (request (0 + THIRTY_DAYS_MS + 1) (0 + THIRTY_DAYS_MS + 1) (GET_read "u1")
         (snd (request 0 0 (POST_write "u1" 12 (Some (JStr "v"))) initial)))
  = Respond 200 (SendJson (Some (JObj []))).
Proof. reflexivity. Qed.

(** The late read is within the refreshed expiry only when the refreshing
    read came later than one millisecond after the write: refreshed at
    [writeTime + 1], the record expires at [writeTime + 1 + THIRTY_DAYS_MS],
    and the sweep at that very time removes it. *)
Example read_refreshed_one_ms_after_write :
  fst (request (0 + THIRTY_DAYS_MS + 1) (0 + THIRTY_DAYS_MS + 1) (GET_read "u1")
         (snd (request 1 1 (GET_read "u1")
                 (snd (request 0 0 (POST_write "u1" 12 (Some (JStr "v"))) initial)))))
  = Respond 200 (SendJson (Some (JObj []))).
Proof. reflexivity. Qed.

(** ** Expiry *)

Lemma get_property_absent w (d : gmap string record) k :
  d !! k = None → data_of (get_property w d k) = None.
Proof.
  intros H. unfold get_property. rewrite H.
  destruct (is_builtin_name k); [done|].
  destruct (String.eqb k "timeRemove"); [|done].
  by destruct (proto_timeRemove w).
Qed.

(** A read request swept at or after the expiry of a record finds the record
    gone: under a key that [Object.prototype] does not provide, the answer
    is the empty object and the only write is the one of the sweep. *)
Lemma read_after_expiry k r ts th w :
  readData w !! k = Some r → timeRemove r <= ts → plain_name w k →
  request ts th (GET_read k) w
  = (Respond 200 (SendJson (Some (JObj []))), writeData (live ts (readData w)) w).
Proof.
  intros Hk Hle Hp. unfold request.
  rewrite removeInactiveUsers_expired by (by exists k, r).
  cbn [handle]. apply read_handler_absent; [|done].
  simpl. by apply (live_lookup_expired _ _ _ r).
Qed.

(** Whatever the key, the value of an expired record is not what a read
    request sends: it sends the empty object or no value at all, and the
    record is no longer in the document. *)
Lemma expired_never_returned k r ts th w :
  readData w !! k = Some r → timeRemove r <= ts →
  (fst (request ts th (GET_read k) w) = Respond 200 (SendJson (Some (JObj [])))
   ∨ fst (request ts th (GET_read k) w) = Respond 200 (SendJson None))
  ∧ readData (snd (request ts th (GET_read k) w)) !! k = None.
Proof.
  intros Hk Hle. unfold request.
  rewrite removeInactiveUsers_expired by (by exists k, r).
  cbn [handle]. unfold read_handler.
  set (w1 := writeData (live ts (readData w)) w).
  assert (Hnone : readData w1 !! k = None)
    by (by apply (live_lookup_expired _ _ _ r)).
  pose proof (get_property_absent w1 _ k Hnone) as Hdata.
  destruct (get_property w1 (readData w1) k) as [|r'| |n] eqn:E; try done.
  - simpl. auto.
  - simpl. destruct (String.eqb k "__proto__"); simpl; auto.
  - simpl. destruct (negb (n =? 0)); simpl; auto.
Qed.

(** C2 (the code at the failing input). The key [toString] is written at
    time 0 and read once its record has expired: the sweep removes the
    record, the lookup then reaches [Object.prototype.toString], and the
    handler rewrites the file and calls [res.json] with [undefined] instead
    of the empty object. *)
Lemma read_expired_toString_sends_undefined :
  request 0 0 (POST_write "toString" 16 (Some (JObj [("a", JNum 1)]))) initial
    = (Respond 200 (Send "Data for user toString has been written"),
       writeData {[ "toString" := {| timeRemove := 0 + THIRTY_DAYS_MS;
                                     data := JObj [("a", JNum 1)] |} ]} initial)
  ∧ request (0 + THIRTY_DAYS_MS) (0 + THIRTY_DAYS_MS) (GET_read "toString")
      (writeData {[ "toString" := {| timeRemove := 0 + THIRTY_DAYS_MS;
                                     data := JObj [("a", JNum 1)] |} ]} initial)
    = (Respond 200 (SendJson None),
       {| file := Some ∅; writes := 3; proto_timeRemove := None |}).
Proof. split; reflexivity. Qed.

(** ** Delete *)

(** Deleting a key that is present removes it, rewrites the file and
    answers 200. *)
Lemma delete_present k r w :
  readData w !! k = Some r →
  delete_handler k w
    = (Respond 200 (Send ("Data for user " ++ k ++ " has been deleted")),
       writeData (delete k (readData w)) w)
  ∧ readData (snd (delete_handler k w)) !! k = None.
Proof.
  intros H. rewrite (delete_handler_own _ _ _ H). split; [done|].
  simpl. apply lookup_delete_eq.
Qed.

(** Deleting, any number of times, a key that is absent and that
    [Object.prototype] does not provide answers 404 and changes nothing. *)
Lemma delete_absent_repeated k w (n : nat) :
  readData w !! k = None → plain_name w k →
  Nat.iter n (fun w' => snd (delete_handler k w')) w = w
  ∧ delete_handler k (Nat.iter n (fun w' => snd (delete_handler k w')) w)
    = (Respond 404 (Send ("No data found for user " ++ k)), w).
Proof.
  intros H Hp.
  assert (Hit : Nat.iter n (fun w' => snd (delete_handler k w')) w = w).
  { induction n as [|n IH]; [done|]. simpl. rewrite IH.
    by rewrite delete_handler_absent. }
  split; [done|]. rewrite Hit. by apply delete_handler_absent.
Qed.

(** C5 (the code at the failing input). In the state of a fresh deployment
    no key is stored, yet deleting the key [toString] answers 200 with the
    confirmation text and writes the file: the lookup reaches
    [Object.prototype.toString]. *)
Lemma delete_absent_toString_answers_200 :
  readData initial !! "toString" = None
  ∧ request 0 0 (GET_delete "toString") initial
    = (Respond 200 (Send "Data for user toString has been deleted"),
       {| file := Some ∅; writes := 1; proto_timeRemove := None |}).
Proof. split; reflexivity. Qed.

(** ** The expiry invariant *)

Lemma readData_writeData (d : gmap string record) w : readData (writeData d w) = d.
Proof. reflexivity. Qed.

Lemma expiry_invariant_mono w w' (g : gmap string Z) :
  (∀ k r, readData w' !! k = Some r → readData w !! k = Some r) →
  expiry_invariant w g → expiry_invariant w' g.
Proof. intros Hsub Hinv k r Hk. apply Hinv, Hsub, Hk. Qed.

Lemma expiry_invariant_insert w (g : gmap string Z) k now v :
  expiry_invariant w g →
  expiry_invariant
    (writeData (<[k := {| timeRemove := now + THIRTY_DAYS_MS; data := v |}]> (readData w)) w)
    (<[k := now]> g).
Proof.
  intros Hinv k' r'. rewrite readData_writeData.
  destruct (decide (k' = k)) as [->|Hne].
  - rewrite !lookup_insert_eq. intros Heq. injection Heq as <-. by exists now.
  - rewrite !lookup_insert_ne by done. apply Hinv.
Qed.

Lemma sweep_preserves now w w' (g : gmap string Z) :
  removeInactiveUsers now w = Some w' →
  expiry_invariant w g → expiry_invariant w' g.
Proof.
  intros Hs. apply expiry_invariant_mono. intros k r.
  destruct (removeInactiveUsers_total now w) as (w1 & Hs1 & Hd & _).
  rewrite Hs in Hs1. injection Hs1 as <-.
  rewrite Hd, live_lookup. destruct (readData w !! k) as [r0|]; [|done].
  simpl. unfold keep. by destruct (timeRemove r0 <=? now).
Qed.

Lemma write_preserves k len json now w (g : gmap string Z) :
  expiry_invariant w g →
  expiry_invariant (snd (write_handler k json now w))
                   (note_access (POST_write k len json) now w g).
Proof.
  intros Hinv. cbn [note_access]. destruct json as [v|]; [|done].
  destruct (truthy v) eqn:Ht; [|by rewrite write_handler_falsy].
  destruct (Z.le_gt_cases (byteLength (stringify v)) MAX_JSON_SIZE) as [Hs|Hs];
    [|by rewrite write_handler_too_large by (done || lia)].
  rewrite write_handler_accepted by done. cbn [fst snd].
  unfold set_property.
  destruct (String.eqb k "__proto__" && bool_decide (readData w !! k = None)) eqn:E.
  - apply andb_prop in E as [_ Hnone%bool_decide_eq_true].
    intros k' r'. rewrite readData_writeData. intros Hk'.
    assert (k' ≠ k) by (intros ->; congruence).
    rewrite lookup_insert_ne by done. by apply Hinv.
  - by apply expiry_invariant_insert.
Qed.

Lemma read_preserves k now w (g : gmap string Z) :
  expiry_invariant w g →
  expiry_invariant (snd (read_handler k now w))
                   (note_access (GET_read k) now w g).
Proof.
  intros Hinv. cbn [note_access].
  destruct (readData w !! k) as [r|] eqn:Hk.
  - rewrite (read_handler_own _ _ _ _ Hk). cbn [snd].
    by apply expiry_invariant_insert.
  - revert Hinv. apply expiry_invariant_mono. intros k' r'.
    unfold read_handler.
    pose proof (get_property_absent w _ k Hk) as Hdata.
    destruct (get_property w (readData w) k) as [|r0| |n]; try done.
    + cbn [ToBoolean assign_timeRemove]. by destruct (String.eqb k "__proto__").
    + cbn [ToBoolean assign_timeRemove]. by destruct (negb (n =? 0)).
Qed.

Lemma delete_preserves k w (g : gmap string Z) :
  expiry_invariant w g → expiry_invariant (snd (delete_handler k w)) g.
Proof.
  apply expiry_invariant_mono. intros k' r'. unfold delete_handler.
  destruct (ToBoolean _); [|done]. cbn [snd]. rewrite readData_writeData.
  intros H. apply lookup_delete_Some in H. tauto.
Qed.

Lemma handle_preserves r now w (g : gmap string Z) :
  expiry_invariant w g →
  expiry_invariant (snd (handle r now w)) (note_access r now w g).
Proof.
  destruct r as [|k len json|k len|k|k]; cbn [handle].
  - unfold dbinfo_handler. by destruct (getFileSizeInBytes w).
  - apply write_preserves.
  - done.
  - apply read_preserves.
  - apply delete_preserves.
Qed.

(** C7. The expiry invariant (every record of the document has
    [timeRemove] equal to the time of the most recent accepted write or
    successful read of its key plus [THIRTY_DAYS_MS]) is preserved by every
    operation: a write, a read, a delete, and the sweep, which always
    returns. *)
Theorem expiry_invariant_preserved (w : world) (g : gmap string Z) :
  expiry_invariant w g →
  (∀ k len json now,
     expiry_invariant (snd (write_handler k json now w))
                      (note_access (POST_write k len json) now w g))
  ∧ (∀ k now,
       expiry_invariant (snd (read_handler k now w))
                        (note_access (GET_read k) now w g))
  ∧ (∀ k, expiry_invariant (snd (delete_handler k w)) g)
  ∧ (∀ now, ∃ w', removeInactiveUsers now w = Some w' ∧ expiry_invariant w' g).
Proof.
  intros Hinv. split; [|split; [|split]].
  - intros k len json now. by apply write_preserves.
  - intros k now. by apply read_preserves.
  - intros k. by apply delete_preserves.
  - intros now. destruct (removeInactiveUsers_total now w) as (w' & Hs & _).
    exists w'. split; [done|]. by apply (sweep_preserves now w).
Qed.

Lemma expiry_invariant_preserved_witness :
  let w := writeData {[ "u1" := {| timeRemove := 5 + THIRTY_DAYS_MS; data := JNum 7 |} ]}
                     initial in
  let g : gmap string Z := {[ "u1" := 5 ]} in
  expiry_invariant w g
  ∧ expiry_invariant (snd (read_handler "u1" 9 w)) (note_access (GET_read "u1") 9 w g)
  ∧ readData (snd (read_handler "u1" 9 w)) !! "u1"
    = Some {| timeRemove := 9 + THIRTY_DAYS_MS; data := JNum 7 |}
  ∧ note_access (GET_read "u1") 9 w g !! "u1" = Some 9.
Proof.
  intros w g.
  assert (Hinv : expiry_invariant w g).
  { intros k r Hk. unfold w in Hk. rewrite readData_writeData in Hk.
    apply lookup_singleton_Some in Hk as [<- <-]. exists 5. split; reflexivity. }
  split; [exact Hinv|].
  split; [exact (proj1 (proj2 (expiry_invariant_preserved w g Hinv)) "u1" 9)|].
  split; reflexivity.
Defined.

(** The invariant holds in every state the service reaches from a fresh
    deployment. *)
Lemma expiry_invariant_reachable reqs :
  expiry_invariant (fst (run reqs initial ∅)) (snd (run reqs initial ∅)).
Proof.
  assert (H : ∀ w (g : gmap string Z), expiry_invariant w g →
              expiry_invariant (fst (run reqs w g)) (snd (run reqs w g))).
  { induction reqs as [|[[ts th] r] rest IH]; intros w g Hinv; [done|].
    cbn [run]. destruct (express_json r); [by apply IH|].
    destruct (removeInactiveUsers ts w) as [w1|] eqn:Hs.
    - apply IH, handle_preserves. by apply (sweep_preserves ts w).
    - by apply IH. }
  apply H. intros k r Hk.
  change (readData initial) with (∅ : gmap string record) in Hk.
  by rewrite lookup_empty in Hk.
Qed.

(** ** Size information *)

Lemma MAX_DB_SIZE_value : MAX_DB_SIZE = 2147483648.
Proof. reflexivity. Qed.

(** Only the read route answers with [res.json]. *)
Lemma json_only_from_read ts th r w status v :
  fst (request ts th r w) = Respond status (SendJson v) → ∃ k, r = GET_read k.
Proof.
  destruct (express_json r) as [error|] eqn:Hp;
    [by rewrite (request_refused_by_parser _ _ _ _ _ Hp)|].
  destruct (request_handle ts th r w Hp) as (w1 & _ & _ & _ & ->).
  destruct r as [|k len json|k len|k|k]; cbn [handle]; [| | |by exists k|].
  - unfold dbinfo_handler. by destruct (getFileSizeInBytes w1).
  - unfold write_handler. destruct json as [j|]; [|done].
    destruct (negb (truthy j)); [done|].
    by destruct (byteLength (stringify j) >? MAX_JSON_SIZE).
  - done.
  - unfold delete_handler. by destruct (ToBoolean _).
Qed.

(** C8 (what the code does). While the file does not exist the handler of
    [/dbinfo] throws; once it exists the handler answers 200 with the HTML
    page that shows, in megabytes with two decimals, the byte size of the
    persisted document, [MAX_DB_SIZE] minus that size (not clamped) and
    [MAX_DB_SIZE], which is 2 GiB.  It never answers with a JSON value, and
    no other route reports sizes. *)
Theorem dbinfo_sends_html_only (w : world) :
  match file w with
  | Some d =>
      dbinfo_handler w
      = (Respond 200
           (Send (dbinfo_page (byteLength (file_text d))
                              (MAX_DB_SIZE - byteLength (file_text d)))), w)
  | None => dbinfo_handler w = (Throw "ENOENT", w)
  end
  ∧ (∀ status v, fst (dbinfo_handler w) ≠ Respond status (SendJson v))
  ∧ MAX_DB_SIZE = 2 * 1024 * 1024 * 1024.
Proof.
  unfold dbinfo_handler, getFileSizeInBytes, getRemainingDbSpace.
  destruct (file w) as [d|]; repeat split; try done.
Qed.

(** The first request of a fresh deployment, when it is [GET /dbinfo],
    fails: the sweep writes nothing and [statSync] finds no file. *)
Example dbinfo_fresh_deployment :
  request 0 0 GET_dbinfo initial = (Throw "ENOENT", initial).
Proof. reflexivity. Qed.

(** After every key has been deleted the file holds the empty document,
    two bytes long, and the page reports it. *)
Example dbinfo_after_delete :
  let w1 := snd (request 0 0 (POST_write "u1" 16 (Some (JObj [("a", JNum 1)]))) initial) in
  let w2 := snd (request 1 1 (GET_delete "u1") w1) in
  file w2 = Some ∅
  ∧ getFileSizeInBytes w2 = Some 2
  ∧ fst (request 2 2 GET_dbinfo w2)
    = Respond 200 (Send (
        LF ++ "    <p>Database Size Information:</p>"
        ++ LF ++ "    <ul>"
        ++ LF ++ "      <li>Used Size: 0.00 MB</li>"
        ++ LF ++ "      <li>Remaining Size: 2048.00 MB</li>"
        ++ LF ++ "      <li>Maximum Size: 2048.00 MB</li>"
        ++ LF ++ "    </ul>"
        ++ LF ++ "  ")).
Proof. repeat split. Qed.

(** * Further properties of the handlers and of the middleware *)

(** ** Case analysis shared by the proofs *)

Lemma sweep_cases now w :
  ∃ w1, removeInactiveUsers now w = Some w1
    ∧ (w1 = w ∨ w1 = writeData (live now (readData w)) w)
    ∧ readData w1 = live now (readData w).
Proof.
  destruct (has_expired_dec now (readData w)) as [Hex|Hno].
  - eexists. split; [by apply removeInactiveUsers_expired|]. split; [by right|done].
  - exists w. split; [by apply removeInactiveUsers_fresh|].
    split; [by left|]. by rewrite live_id.
Qed.

Lemma request_split ts th r w :
  express_json r = None →
  ∃ w1, removeInactiveUsers ts w = Some w1
    ∧ (w1 = w ∨ w1 = writeData (live ts (readData w)) w)
    ∧ readData w1 = live ts (readData w)
    ∧ request ts th r w = handle r th w1.
Proof.
  intros Hp. destruct (sweep_cases ts w) as (w1 & Hs & Hc & Hd).
  exists w1. unfold request. by rewrite Hp, Hs.
Qed.

(** What each handler leaves in the document. *)
Lemma write_handler_document k json now w :
  readData (snd (write_handler k json now w)) = readData w
  ∨ ∃ v, json = Some v ∧ truthy v = true
      ∧ byteLength (stringify v) <= MAX_JSON_SIZE
      ∧ readData (snd (write_handler k json now w))
        = set_property (readData w) k
            {| timeRemove := now + THIRTY_DAYS_MS; data := v |}.
Proof.
  destruct json as [v|]; [|by left].
  destruct (truthy v) eqn:Ht; [|left; by rewrite write_handler_falsy].
  destruct (Z.le_gt_cases (byteLength (stringify v)) MAX_JSON_SIZE) as [Hs|Hs].
  - right. exists v. by rewrite write_handler_accepted.
  - left. by rewrite write_handler_too_large by (done || lia).
Qed.

Lemma read_handler_document k now w :
  readData (snd (read_handler k now w))
  = match readData w !! k with
    | Some r => <[k := {| timeRemove := now + THIRTY_DAYS_MS; data := data r |}]>
                  (readData w)
    | None => readData w
    end.
Proof.
  destruct (readData w !! k) as [r|] eqn:Hk.
  - by rewrite (read_handler_own _ _ _ _ Hk).
  - unfold read_handler.
    pose proof (get_property_absent w _ k Hk) as Hdata.
    destruct (get_property w (readData w) k) as [|r0| |n]; try done.
    + cbn [ToBoolean assign_timeRemove]. by destruct (String.eqb k "__proto__").
    + cbn [ToBoolean assign_timeRemove]. by destruct (negb (n =? 0)).
Qed.

Lemma delete_handler_document k w :
  readData (snd (delete_handler k w)) = delete k (readData w).
Proof.
  unfold delete_handler. destruct (ToBoolean _) eqn:E; [done|].
  cbn [snd]. symmetry. apply delete_id.
  destruct (readData w !! k) as [r|] eqn:Hk; [|done].
  by rewrite (get_property_own _ _ _ _ Hk) in E.
Qed.

Lemma dbinfo_handler_state w : snd (dbinfo_handler w) = w.
Proof. unfold dbinfo_handler. by destruct (getFileSizeInBytes w). Qed.

Lemma set_property_lookup_ne (d : gmap string record) k k' r :
  k ≠ k' → set_property d k r !! k' = d !! k'.
Proof.
  intros Hne. unfold set_property.
  destruct (_ && _); [done|]. by rewrite lookup_insert_ne.
Qed.

(** ** Keys do not interfere *)

Lemma handle_lookup_other r now w k' :
  route_key r ≠ Some k' →
  readData (snd (handle r now w)) !! k' = readData w !! k'.
Proof.
  intros Hne. destruct r as [|k len json|k len|k|k]; cbn [handle route_key] in *.
  - by rewrite dbinfo_handler_state.
  - assert (k ≠ k') by congruence.
    destruct (write_handler_document k json now w) as [->|(v & _ & _ & _ & ->)];
      [done|]. by apply set_property_lookup_ne.
  - done.
  - assert (k ≠ k') by congruence.
    rewrite read_handler_document.
    destruct (readData w !! k); [|done]. by rewrite lookup_insert_ne.
  - assert (k ≠ k') by congruence.
    rewrite delete_handler_document. by rewrite lookup_delete_ne.
Qed.

(** X2. A request about one key, or about none, leaves under every other
    key exactly what its sweep keeps of it: the record as it was when it is
    still live at the sweep's clock, nothing otherwise.  When the body
    parser refuses the request there is no sweep, and the entry is what it
    was. *)
Theorem request_other_key (ts th : Z) (r : route) (w : world) (k' : string) :
  route_key r ≠ Some k' →
  readData (snd (request ts th r w)) !! k'
  = match express_json r with
    | None => readData w !! k' ≫= keep ts
    | Some _ => readData w !! k'
    end.
Proof.
  intros Hne. destruct (express_json r) as [error|] eqn:Hp.
  - by rewrite (request_refused_by_parser _ _ _ _ _ Hp).
  - destruct (request_split ts th r w Hp) as (w1 & _ & _ & Hd & ->).
    rewrite handle_lookup_other by done. by rewrite Hd, live_lookup.
Qed.

Lemma request_other_key_witness :
  let w := writeData {[ "u1" := {| timeRemove := 50; data := JNum 1 |};
                        "u2" := {| timeRemove := 50; data := JNum 2 |} ]} initial in
  route_key (GET_delete "u1") ≠ Some "u2"
  ∧ readData (snd (request 10 10 (GET_delete "u1") w)) !! "u2"
    = readData w !! "u2" ≫= keep 10.
Proof.
  intros w. assert (H : route_key (GET_delete "u1") ≠ Some "u2") by discriminate.
  split; [exact H|]. exact (request_other_key 10 10 (GET_delete "u1") w "u2" H).
Defined.

(** X1. An overwrite leaves no trace of the value it replaces: after two
    accepted writes under a key the file is the one the second write alone
    would have left. *)
Theorem write_overwrites (k : string) (v1 v2 : json) (t1 t2 : Z) (w : world) :
  truthy v1 = true → byteLength (stringify v1) <= MAX_JSON_SIZE →
  truthy v2 = true → byteLength (stringify v2) <= MAX_JSON_SIZE →
  file (snd (write_handler k (Some v2) t2 (snd (write_handler k (Some v1) t1 w))))
  = file (snd (write_handler k (Some v2) t2 w)).
Proof.
  intros Ht1 Hs1 Ht2 Hs2. rewrite !write_handler_accepted by done.
  cbn [snd]. rewrite readData_writeData. cbn [writeData file]. f_equal.
  unfold set_property.
  destruct (String.eqb k "__proto__") eqn:Ek; cbn [andb];
    [|by rewrite insert_insert_eq].
  destruct (decide (readData w !! k = None)) as [Hk|Hk].
  - rewrite (bool_decide_eq_true_2 _ Hk). by rewrite (bool_decide_eq_true_2 _ Hk).
  - rewrite (bool_decide_eq_false_2 _ Hk).
    rewrite bool_decide_eq_false_2 by (by rewrite lookup_insert_eq).
    by rewrite insert_insert_eq.
Qed.

Lemma write_overwrites_witness :
  file (snd (write_handler "u1" (Some (JNum 2)) 7
              (snd (write_handler "u1" (Some (JNum 1)) 3 initial))))
  = file (snd (write_handler "u1" (Some (JNum 2)) 7 initial)).
Proof.
  apply (write_overwrites "u1" (JNum 1) (JNum 2) 3 7 initial).
  - reflexivity.
  - vm_compute. discriminate.
  - reflexivity.
  - vm_compute. discriminate.
Defined.

(** ** Requests that are refused, and file writes *)

Lemma handle_refused r now w :
  (∀ b, fst (handle r now w) ≠ Respond 200 b) → snd (handle r now w) = w.
Proof.
  intros Hno. destruct r as [|k len json|k len|k|k]; cbn [handle] in *.
  - apply dbinfo_handler_state.
  - destruct json as [v|]; [|done].
    destruct (truthy v) eqn:Ht; [|by rewrite write_handler_falsy].
    destruct (Z.le_gt_cases (byteLength (stringify v)) MAX_JSON_SIZE) as [Hs|Hs];
      [|by rewrite write_handler_too_large by (done || lia)].
    rewrite write_handler_accepted in Hno by done. by destruct (Hno _ eq_refl).
  - done.
  - unfold read_handler in *. destruct (ToBoolean _).
    + destruct (assign_timeRemove _ _ _ _ _). by destruct (Hno _ eq_refl).
    + by destruct (Hno _ eq_refl).
  - unfold delete_handler in *. destruct (ToBoolean _); [|done].
    by destruct (Hno _ eq_refl).
Qed.

(** X3. A request that is not answered 200 leaves the state to no handler:
    when the body parser refuses it (a body over the limit, or no JSON
    text) the state is untouched; otherwise (a refused write, a delete of a
    key that is not found, a failing [/dbinfo]) the state is exactly the
    one the sweep of that request left. *)
Theorem request_refused_only_sweeps (ts th : Z) (r : route) (w : world) :
  (∀ b, fst (request ts th r w) ≠ Respond 200 b) →
  match express_json r with
  | None => removeInactiveUsers ts w = Some (snd (request ts th r w))
  | Some _ => snd (request ts th r w) = w
  end.
Proof.
  intros Hno. destruct (express_json r) as [error|] eqn:Hp.
  - by rewrite (request_refused_by_parser _ _ _ _ _ Hp).
  - destruct (request_split ts th r w Hp) as (w1 & Hs & _ & _ & Hreq).
    rewrite Hreq in *. by rewrite handle_refused.
Qed.

Lemma request_refused_only_sweeps_witness :
  (∀ b, fst (request 5 5 (GET_delete "u1") initial) ≠ Respond 200 b)
  ∧ removeInactiveUsers 5 initial = Some (snd (request 5 5 (GET_delete "u1") initial)).
Proof.
  assert (H : ∀ b, fst (request 5 5 (GET_delete "u1") initial) ≠ Respond 200 b)
    by (intros b; vm_compute; discriminate).
  split; [exact H|]. exact (request_refused_only_sweeps 5 5 (GET_delete "u1") initial H).
Defined.

Lemma handle_writes r now w :
  (writes w <= writes (snd (handle r now w)) <= S (writes w))%nat.
Proof.
  destruct r as [|k len json|k len|k|k]; cbn [handle].
  - rewrite dbinfo_handler_state. lia.
  - unfold write_handler. destruct json as [v|]; [|simpl; lia].
    destruct (negb (truthy v)); [simpl; lia|].
    destruct (_ >? _); simpl; lia.
  - simpl. lia.
  - unfold read_handler. destruct (ToBoolean _); [|simpl; lia].
    destruct (get_property _ _ _) as [|r0| |n]; cbn [assign_timeRemove];
      try (simpl; lia).
    destruct (String.eqb k "__proto__"); simpl; lia.
  - unfold delete_handler. destruct (ToBoolean _); simpl; lia.
Qed.

(** X4. A request calls [fs.writeFileSync] at most twice, once in the sweep
    and once in its handler, and the handler of [/dbinfo] never does. *)
Theorem request_writes_at_most_twice (ts th : Z) (r : route) (w : world) :
  (writes w <= writes (snd (request ts th r w)) <= 2 + writes w)%nat
  ∧ (writes (snd (request ts th GET_dbinfo w)) <= 1 + writes w)%nat.
Proof.
  split.
  - destruct (express_json r) as [error|] eqn:Hp;
      [rewrite (request_refused_by_parser _ _ _ _ _ Hp); simpl; lia|].
    destruct (request_split ts th r w Hp) as (w1 & _ & [->| ->] & _ & ->);
      pose proof (handle_writes r th w);
      pose proof (handle_writes r th (writeData (live ts (readData w)) w));
      simpl in *; lia.
  - destruct (request_split ts th GET_dbinfo w eq_refl) as (w1 & _ & [->| ->] & _ & ->);
      cbn [handle]; rewrite dbinfo_handler_state; simpl; lia.
Qed.

(** ** The file, once written, stays *)

Lemma handle_file_stays r now w :
  is_Some (file w) → is_Some (file (snd (handle r now w))).
Proof.
  intros Hf. destruct r as [|k len json|k len|k|k]; cbn [handle].
  - by rewrite dbinfo_handler_state.
  - unfold write_handler. destruct json as [v|]; [|done].
    destruct (negb (truthy v)); [done|]. by destruct (_ >? _).
  - done.
  - unfold read_handler. destruct (ToBoolean _); [|done].
    by destruct (assign_timeRemove _ _ _ _ _).
  - unfold delete_handler. by destruct (ToBoolean _).
Qed.

(** X5. No request removes the file: once [global.json] exists it exists
    after every further request, and [/dbinfo] then answers 200; [/dbinfo]
    throws exactly while the file has never been written. *)
Theorem file_stays_and_dbinfo_answers (ts th : Z) (w : world) :
  (is_Some (file w) →
     (∀ r, is_Some (file (snd (request ts th r w))))
     ∧ ∃ page w', request ts th GET_dbinfo w = (Respond 200 (Send page), w'))
  ∧ (file w = None → request ts th GET_dbinfo w = (Throw "ENOENT", w)).
Proof.
  split.
  - intros Hf. split.
    + intros r. destruct (express_json r) as [error|] eqn:Hp;
        [by rewrite (request_refused_by_parser _ _ _ _ _ Hp)|].
      destruct (request_split ts th r w Hp) as (w1 & _ & [->| ->] & _ & ->);
        by apply handle_file_stays.
    + destruct (request_split ts th GET_dbinfo w eq_refl) as (w1 & _ & Hc & _ & ->).
      assert (Hf1 : is_Some (file w1)) by (by destruct Hc as [->| ->]).
      destruct Hf1 as [d Hd]. cbn [handle].
      unfold dbinfo_handler, getFileSizeInBytes. rewrite Hd. by eexists _, _.
  - intros Hf. rewrite request_fresh; [|done|].
    + cbn [handle]. unfold dbinfo_handler, getFileSizeInBytes. by rewrite Hf.
    + intros (k & r & Hk & _). unfold readData in Hk. rewrite Hf in Hk.
      by rewrite lookup_empty in Hk.
Qed.

(** ** Sweeps compose *)

Lemma live_live t1 t2 (d : gmap string record) :
  t1 <= t2 → live t2 (live t1 d) = live t2 d.
Proof.
  intros Hle. apply map_eq. intros k. rewrite !live_lookup.
  destruct (d !! k) as [r|]; [|done]. simpl. unfold keep.
  destruct (Z.leb_spec (timeRemove r) t1); [|done]. simpl.
  by rewrite (proj2 (Z.leb_le (timeRemove r) t2)) by lia.
Qed.

Lemma live_has_no_expired t (d : gmap string record) : ¬ has_expired t (live t d).
Proof.
  intros (k & r & Hk & Hle). rewrite live_lookup in Hk.
  destruct (d !! k) as [r0|]; [|done]. simpl in Hk. unfold keep in Hk.
  destruct (Z.leb_spec (timeRemove r0) t); [done|].
  injection Hk as ->. lia.
Qed.

(** X6. Sweeping at a time and then at a later one leaves the records that
    are live at the later time, as the later sweep alone would; and a sweep
    repeated at the same time finds nothing to remove and does not write. *)
Theorem sweeps_compose (t1 t2 : Z) (w : world) :
  t1 <= t2 →
  ∃ w1 w2,
    removeInactiveUsers t1 w = Some w1
    ∧ removeInactiveUsers t2 w1 = Some w2
    ∧ readData w2 = live t2 (readData w)
    ∧ removeInactiveUsers t2 w2 = Some w2.
Proof.
  intros Hle.
  destruct (sweep_cases t1 w) as (w1 & Hs1 & _ & Hd1).
  destruct (sweep_cases t2 w1) as (w2 & Hs2 & _ & Hd2).
  exists w1, w2. split; [done|]. split; [done|].
  assert (Hd : readData w2 = live t2 (readData w))
    by (by rewrite Hd2, Hd1, live_live).
  split; [done|]. apply removeInactiveUsers_fresh.
  rewrite Hd. apply live_has_no_expired.
Qed.

Lemma sweeps_compose_witness :
  ∃ w1 w2,
    removeInactiveUsers 10
      (writeData {[ "u1" := {| timeRemove := 5; data := JNum 1 |};
                    "u2" := {| timeRemove := 15; data := JNum 2 |};
                    "u3" := {| timeRemove := 25; data := JNum 3 |} ]} initial)
      = Some w1
    ∧ removeInactiveUsers 20 w1 = Some w2
    ∧ readData w2
      = live 20 (readData
          (writeData {[ "u1" := {| timeRemove := 5; data := JNum 1 |};
                        "u2" := {| timeRemove := 15; data := JNum 2 |};
                        "u3" := {| timeRemove := 25; data := JNum 3 |} ]} initial))
    ∧ removeInactiveUsers 20 w2 = Some w2.
Proof. apply (sweeps_compose 10 20). lia. Defined.

(** ** Keys without a live record *)

Lemma plain_name_same_proto w w' k :
  proto_timeRemove w' = proto_timeRemove w → plain_name w k → plain_name w' k.
Proof. intros Hp [Hb Ht]. split; [done|]. intros Hk. rewrite Hp. by apply Ht. Qed.

(** X7. A read request for a key that has no live record when the request
    is swept (it was never written, it was deleted, or its record has
    expired), the key being none that [Object.prototype] provides, is
    answered with the empty object, and its handler changes nothing: the
    state is the one the sweep left. *)
Theorem read_without_live_record (k : string) (ts th : Z) (w : world) :
  plain_name w k →
  readData w !! k ≫= keep ts = None →
  ∃ w1, removeInactiveUsers ts w = Some w1
    ∧ request ts th (GET_read k) w = (Respond 200 (SendJson (Some (JObj []))), w1).
Proof.
  intros Hp Hk.
  destruct (request_split ts th (GET_read k) w eq_refl) as (w1 & Hs & Hc & Hd & ->).
  exists w1. split; [done|]. cbn [handle]. apply read_handler_absent.
  - by rewrite Hd, live_lookup.
  - apply (plain_name_same_proto w); [|done]. by destruct Hc as [->| ->].
Qed.

Lemma read_without_live_record_witness :
  ∃ w1, removeInactiveUsers 3 initial = Some w1
    ∧ request 3 4 (GET_read "nobody") initial
      = (Respond 200 (SendJson (Some (JObj []))), w1).
Proof.
  apply (read_without_live_record "nobody" 3 4 initial).
  - split; [reflexivity|discriminate].
  - reflexivity.
Defined.

(** X8. Deleting a key that is stored and that [Object.prototype] does not
    provide is answered 200; right after, a read of the key is answered
    with the empty object and a second delete with 404, and neither changes
    the state the first delete left. *)
Theorem delete_then_read_and_delete (k : string) (r : record) (now : Z) (w : world) :
  plain_name w k →
  readData w !! k = Some r →
  let w1 := writeData (delete k (readData w)) w in
  delete_handler k w
    = (Respond 200 (Send ("Data for user " ++ k ++ " has been deleted")), w1)
  ∧ read_handler k now w1 = (Respond 200 (SendJson (Some (JObj []))), w1)
  ∧ delete_handler k w1 = (Respond 404 (Send ("No data found for user " ++ k)), w1).
Proof.
  intros Hp Hk w1.
  assert (Hnone : readData w1 !! k = None) by apply lookup_delete_eq.
  assert (Hp1 : plain_name w1 k) by (by apply (plain_name_same_proto w)).
  split; [by apply (delete_handler_own _ _ r)|]. split.
  - by apply read_handler_absent.
  - by apply delete_handler_absent.
Qed.

Lemma delete_then_read_and_delete_witness :
  let w := writeData {[ "u1" := {| timeRemove := 50; data := JNum 1 |} ]} initial in
  let w1 := writeData (delete "u1" (readData w)) w in
  delete_handler "u1" w
    = (Respond 200 (Send ("Data for user " ++ "u1" ++ " has been deleted")), w1)
  ∧ read_handler "u1" 9 w1 = (Respond 200 (SendJson (Some (JObj []))), w1)
  ∧ delete_handler "u1" w1
    = (Respond 404 (Send ("No data found for user " ++ "u1")), w1).
Proof.
  intros w.
  apply (delete_then_read_and_delete "u1" {| timeRemove := 50; data := JNum 1 |} 9 w).
  - split; [reflexivity|discriminate].
  - reflexivity.
Defined.

(** ** States reached from a fresh deployment *)

Section reachable.

Context (P : world → Prop) (Q : route → Prop).
Hypothesis P_initial : P initial.
Hypothesis P_sweep : ∀ now w w', P w → removeInactiveUsers now w = Some w' → P w'.
Hypothesis P_handle : ∀ r now w, Q r → P w → P (snd (handle r now w)).

Lemma run_invariant_on reqs (g : gmap string Z) :
  Forall (fun q : Z * Z * route => Q (snd q)) reqs → P (fst (run reqs initial g)).
Proof.
  assert (H : ∀ w (g' : gmap string Z),
            Forall (fun q : Z * Z * route => Q (snd q)) reqs →
            P w → P (fst (run reqs w g'))).
  { induction reqs as [|[[ts th] r] rest IH]; intros w g' Hq Hw; [done|].
    apply Forall_cons in Hq as [Hr Hq].
    cbn [run]. destruct (express_json r); [by apply IH|].
    destruct (removeInactiveUsers ts w) as [w1|] eqn:Hs.
    - apply IH; [done|]. apply P_handle; [done|]. by apply (P_sweep ts w).
    - by apply IH. }
  intros Hq. by apply H.
Qed.

End reachable.

Lemma run_invariant (P : world → Prop) :
  P initial →
  (∀ now w w', P w → removeInactiveUsers now w = Some w' → P w') →
  (∀ r now w, P w → P (snd (handle r now w))) →
  ∀ reqs (g : gmap string Z), P (fst (run reqs initial g)).
Proof.
  intros Hi Hs Hh reqs g.
  apply (run_invariant_on P (fun _ => True)); try done.
  - intros r now w _. apply Hh.
  - by apply Forall_forall.
Qed.

Lemma sweep_lookup_None now w w' k :
  removeInactiveUsers now w = Some w' →
  readData w !! k = None → readData w' !! k = None.
Proof.
  intros Hs Hk. destruct (sweep_cases now w) as (w1 & Hs1 & _ & Hd).
  rewrite Hs in Hs1. injection Hs1 as <-. by rewrite Hd, live_lookup, Hk.
Qed.

Lemma handle_proto_key_absent r now w :
  readData w !! "__proto__" = None →
  readData (snd (handle r now w)) !! "__proto__" = None.
Proof.
  intros Hk. destruct r as [|k len json|k len|k|k]; cbn [handle].
  - by rewrite dbinfo_handler_state.
  - destruct (write_handler_document k json now w) as [->|(v & _ & _ & _ & ->)];
      [done|].
    destruct (String.eqb_spec k "__proto__") as [->|Hne].
    + unfold set_property. by rewrite (bool_decide_eq_true_2 _ Hk).
    + by rewrite set_property_lookup_ne.
  - done.
  - rewrite read_handler_document.
    destruct (readData w !! k) as [r|] eqn:Hr; [|done].
    rewrite lookup_insert_ne; [done|]. intros ->. congruence.
  - rewrite delete_handler_document.
    destruct (decide (k = "__proto__")) as [->|Hne].
    + apply lookup_delete_eq.
    + by rewrite lookup_delete_ne.
Qed.

(** X9. Nothing is ever stored under the key [__proto__]: in every state
    reached from a fresh deployment the document has no such entry, and a
    valid write under that key is answered 200 while the document it writes
    back is the one it read. *)
Theorem proto_key_never_stored (reqs : list (Z * Z * route)) :
  readData (fst (run reqs initial ∅)) !! "__proto__" = None
  ∧ ∀ v now, truthy v = true → byteLength (stringify v) <= MAX_JSON_SIZE →
      write_handler "__proto__" (Some v) now (fst (run reqs initial ∅))
      = (Respond 200 (Send "Data for user __proto__ has been written"),
         writeData (readData (fst (run reqs initial ∅))) (fst (run reqs initial ∅))).
Proof.
  assert (Hk : readData (fst (run reqs initial ∅)) !! "__proto__" = None).
  { apply (run_invariant (fun w => readData w !! "__proto__" = None)).
    - reflexivity.
    - intros now w w' Hw Hs. by apply (sweep_lookup_None now w).
    - intros r now w Hw. by apply handle_proto_key_absent. }
  split; [done|]. intros v now Ht Hs.
  rewrite write_handler_accepted by done. unfold set_property.
  by rewrite (bool_decide_eq_true_2 _ Hk).
Qed.

(** ** Stored values *)

Lemma handle_stored_values_valid r now w :
  safe_route r = true →
  stored_values_valid w → stored_values_valid (snd (handle r now w)).
Proof.
  intros Hsafe Hw k' r'. destruct r as [|k len json|k len|k|k]; cbn [handle].
  - rewrite dbinfo_handler_state. apply Hw.
  - destruct (write_handler_document k json now w) as [->|(v & -> & Ht & Hs & ->)];
      [apply Hw|].
    unfold set_property. destruct (_ && _); [apply Hw|].
    destruct (decide (k' = k)) as [->|Hne].
    + rewrite lookup_insert_eq. intros Heq. injection Heq as <-. done.
    + rewrite lookup_insert_ne by done. apply Hw.
  - apply Hw.
  - rewrite read_handler_document.
    destruct (readData w !! k) as [r0|] eqn:Hr; [|apply Hw].
    destruct (decide (k' = k)) as [->|Hne].
    + rewrite lookup_insert_eq. intros Heq. injection Heq as <-.
      apply (Hw k r0 Hr).
    + rewrite lookup_insert_ne by done. apply Hw.
  - rewrite delete_handler_document. intros H.
    apply lookup_delete_Some in H as [_ H]. by apply (Hw k').
Qed.

Lemma sweep_stored_values_valid now w w' :
  removeInactiveUsers now w = Some w' →
  stored_values_valid w → stored_values_valid w'.
Proof.
  intros Hs Hw k r. destruct (sweep_cases now w) as (w1 & Hs1 & _ & Hd).
  rewrite Hs in Hs1. injection Hs1 as <-. rewrite Hd, live_lookup.
  destruct (readData w !! k) as [r0|] eqn:Hk; [|done]. simpl. unfold keep.
  destruct (timeRemove r0 <=? now); [done|]. intros Heq. injection Heq as <-.
  by apply (Hw k).
Qed.

(** X13. Every value the service holds went through the checks of the write
    handler: in every state reached from a fresh deployment by requests
    whose numbers are safe integers, each stored value is truthy, has safe
    integers for numbers and serializes to at most [MAX_JSON_SIZE] bytes,
    and so is every JSON value a read request sends. *)
Theorem stored_and_served_values_valid (reqs : list (Z * Z * route)) :
  Forall (fun q : Z * Z * route => safe_route (snd q) = true) reqs →
  stored_values_valid (fst (run reqs initial ∅))
  ∧ ∀ ts th k v,
      fst (request ts th (GET_read k) (fst (run reqs initial ∅)))
        = Respond 200 (SendJson (Some v)) →
      truthy v = true
      ∧ safe_numbers v = true
      ∧ byteLength (stringify v) <= MAX_JSON_SIZE.
Proof.
  intros Hreqs.
  assert (Hv : stored_values_valid (fst (run reqs initial ∅))).
  { apply (run_invariant_on stored_values_valid
             (fun r => safe_route r = true)); [| | |done].
    - intros k r Hk. change (readData initial) with (∅ : gmap string record) in Hk.
      by rewrite lookup_empty in Hk.
    - intros now w w' Hw Hs. by apply (sweep_stored_values_valid now w).
    - intros r now w Hr Hw. by apply handle_stored_values_valid. }
  split; [done|]. intros ts th k v.
  destruct (request_split ts th (GET_read k) (fst (run reqs initial ∅)) eq_refl)
    as (w1 & Hs & _ & _ & ->).
  pose proof (sweep_stored_values_valid _ _ _ Hs Hv) as Hv1.
  cbn [handle]. unfold read_handler.
  destruct (readData w1 !! k) as [r|] eqn:Hk.
  - rewrite (get_property_own _ _ _ _ Hk). cbn. intros Heq.
    injection Heq as <-. by apply (Hv1 k).
  - pose proof (get_property_absent w1 _ k Hk) as Hdata.
    destruct (ToBoolean _).
    + destruct (assign_timeRemove _ _ _ _ _). cbn [fst]. rewrite Hdata. done.
    + cbn [fst]. intros Heq. injection Heq as <-.
      split; [reflexivity|]. split; [reflexivity|]. vm_compute. discriminate.
Qed.

Lemma stored_and_served_values_valid_witness :
  let reqs := [ (0, 0, POST_write "u1" 16 (Some (JObj [("a", JNum 1)])));
                (1, 1, POST_write "u2" 13 (Some JNull));
                (2, 2, GET_read "u1");
                (3, 3, GET_delete "u2") ] in
  stored_values_valid (fst (run reqs initial ∅))
  ∧ readData (fst (run reqs initial ∅)) !! "u1"
    = Some {| timeRemove := 2 + THIRTY_DAYS_MS; data := JObj [("a", JNum 1)] |}
  ∧ ∀ ts th k v,
      fst (request ts th (GET_read k) (fst (run reqs initial ∅)))
        = Respond 200 (SendJson (Some v)) →
      truthy v = true
      ∧ safe_numbers v = true
      ∧ byteLength (stringify v) <= MAX_JSON_SIZE.
Proof.
  intros reqs.
  assert (Hreqs : Forall (fun q : Z * Z * route => safe_route (snd q) = true) reqs)
    by (repeat constructor).
  destruct (stored_and_served_values_valid reqs Hreqs) as [H1 H2].
  split; [exact H1|]. split; [reflexivity|exact H2].
Defined.

(** ** The one write to [Object.prototype] *)

Lemma handle_proto_changed r now w :
  proto_timeRemove (snd (handle r now w)) ≠ proto_timeRemove w →
  r = GET_read "__proto__".
Proof.
  destruct r as [|k len json|k len|k|k]; cbn [handle].
  - by rewrite dbinfo_handler_state.
  - unfold write_handler. destruct json as [v|]; [|done].
    destruct (negb (truthy v)); [done|]. by destruct (_ >? _).
  - done.
  - destruct (String.eqb_spec k "__proto__") as [->|Hne]; [done|].
    unfold read_handler. destruct (ToBoolean _); [|done].
    destruct (get_property _ _ _) as [|r0| |n]; cbn [assign_timeRemove]; try done.
    by destruct (String.eqb_spec k "__proto__").
  - unfold delete_handler. by destruct (ToBoolean _).
Qed.

(** X10. The only request that changes [Object.prototype] is the read of
    the key [__proto__]: after any other request the inherited [timeRemove]
    is what it was. *)
Theorem only_proto_read_pollutes (ts th : Z) (r : route) (w : world) :
  proto_timeRemove (snd (request ts th r w)) ≠ proto_timeRemove w →
  r = GET_read "__proto__".
Proof.
  intros Hne. destruct (express_json r) as [error|] eqn:Hp0;
    [by rewrite (request_refused_by_parser _ _ _ _ _ Hp0) in Hne|].
  destruct (request_split ts th r w Hp0) as (w1 & _ & Hc & _ & Hreq).
  rewrite Hreq in Hne.
  assert (Hp : proto_timeRemove w1 = proto_timeRemove w)
    by (by destruct Hc as [->| ->]).
  apply (handle_proto_changed r th w1). by rewrite Hp.
Qed.

Lemma only_proto_read_pollutes_witness :
  proto_timeRemove (snd (request 1 2 (GET_read "__proto__") initial))
    ≠ proto_timeRemove initial
  ∧ GET_read "__proto__" = GET_read "__proto__".
Proof.
  assert (H : proto_timeRemove (snd (request 1 2 (GET_read "__proto__") initial))
              ≠ proto_timeRemove initial) by (vm_compute; discriminate).
  split; [exact H|].
  exact (only_proto_read_pollutes 1 2 (GET_read "__proto__") initial H).
Defined.

(** X11. Reading the key [__proto__], which is never stored, sets
    [Object.prototype.timeRemove]; from then on the key [timeRemove], though
    absent from the document, is found by the delete handler, which answers
    200 where it answered 404 before. *)
Theorem proto_read_changes_delete (now : Z) (w : world) :
  readData w !! "__proto__" = None →
  readData w !! "timeRemove" = None →
  proto_timeRemove w = None →
  now + THIRTY_DAYS_MS ≠ 0 →
  proto_timeRemove (snd (read_handler "__proto__" now w))
    = Some (now + THIRTY_DAYS_MS)
  ∧ fst (delete_handler "timeRemove" w)
    = Respond 404 (Send "No data found for user timeRemove")
  ∧ fst (delete_handler "timeRemove" (snd (read_handler "__proto__" now w)))
    = Respond 200 (Send "Data for user timeRemove has been deleted").
Proof.
  intros Hp Ht Hnone Hnz.
  assert (Hread : snd (read_handler "__proto__" now w)
    = writeData (readData w)
        {| file := file w; writes := writes w;
           proto_timeRemove := Some (now + THIRTY_DAYS_MS) |}).
  { unfold read_handler, get_property. by rewrite Hp. }
  rewrite Hread. split; [done|]. split.
  - rewrite delete_handler_absent; [done|done|]. split; [done|]. done.
  - set (w1 := writeData _ _).
    assert (Hg : get_property w1 (readData w1) "timeRemove"
                 = VNumber (now + THIRTY_DAYS_MS)).
    { unfold get_property, w1. rewrite readData_writeData, Ht. reflexivity. }
    unfold delete_handler. rewrite Hg. cbn [ToBoolean].
    by rewrite (proj2 (Z.eqb_neq _ _) Hnz).
Qed.

Lemma proto_read_changes_delete_witness :
  proto_timeRemove (snd (read_handler "__proto__" 5 initial))
    = Some (5 + THIRTY_DAYS_MS)
  ∧ fst (delete_handler "timeRemove" initial)
    = Respond 404 (Send "No data found for user timeRemove")
  ∧ fst (delete_handler "timeRemove" (snd (read_handler "__proto__" 5 initial)))
    = Respond 200 (Send "Data for user timeRemove has been deleted").
Proof.
  apply (proto_read_changes_delete 5 initial); try reflexivity.
  vm_compute. discriminate.
Defined.

(** ** What the size page can show *)

Lemma toFixed2_nonneg (num den n : Z) :
  0 <= num → 0 < den →
  2 * den * n <= 200 * num + den < 2 * den * (n + 1) →
  toFixed2 num den = decimal (n / 100) ++ "." ++ two_digits (n mod 100).
Proof.
  intros Hnum Hden Hn. unfold toFixed2.
  assert (E : (200 * Z.abs num + den) / (2 * den) = n).
  { rewrite Z.abs_eq by done. symmetry.
    apply (Z.div_unique _ _ _ (200 * num + den - 2 * den * n)); lia. }
  rewrite E. by rewrite (proj2 (Z.ltb_ge num 0)) by done.
Qed.

Lemma dbinfo_page_small (u : Z) :
  0 <= u <= 5242 →
  dbinfo_page u (getRemainingDbSpace u) = dbinfo_page 0 (getRemainingDbSpace 0).
Proof.
  intros Hu. unfold dbinfo_page.
  rewrite (toFixed2_nonneg u (1024 * 1024) 0) by lia.
  rewrite (toFixed2_nonneg (getRemainingDbSpace u) (1024 * 1024) 204800)
    by (unfold getRemainingDbSpace, MAX_DB_SIZE; lia).
  reflexivity.
Qed.

(** X12. The page of [/dbinfo] rounds to hundredths of a megabyte: while the
    file has at most 5242 bytes the page is the same whatever the file
    holds, with 0.00 MB used and 2048.00 MB remaining. *)
Theorem dbinfo_small_files_look_alike (w1 w2 : world) (u1 u2 : Z) :
  getFileSizeInBytes w1 = Some u1 → u1 <= 5242 →
  getFileSizeInBytes w2 = Some u2 → u2 <= 5242 →
  fst (dbinfo_handler w1) = fst (dbinfo_handler w2)
  ∧ fst (dbinfo_handler w1) = Respond 200 (Send (dbinfo_page 0 MAX_DB_SIZE)).
Proof.
  intros H1 Hu1 H2 Hu2.
  assert (Hpos : ∀ w u, getFileSizeInBytes w = Some u → 0 <= u).
  { intros w u. unfold getFileSizeInBytes, byteLength.
    destruct (file w); [|done]. intros [= <-]. lia. }
  pose proof (Hpos _ _ H1). pose proof (Hpos _ _ H2).
  unfold dbinfo_handler. rewrite H1, H2. cbn [fst].
  rewrite (dbinfo_page_small u1), (dbinfo_page_small u2) by lia. done.
Qed.

Lemma dbinfo_small_files_look_alike_witness :
  let w1 := writeData ∅ initial in
  let w2 := writeData {[ "u1" := {| timeRemove := 50; data := JStr "some text" |} ]}
                      initial in
  getFileSizeInBytes w1 = Some 2
  ∧ getFileSizeInBytes w2 = Some 63
  ∧ fst (dbinfo_handler w1) = fst (dbinfo_handler w2)
  ∧ fst (dbinfo_handler w1) = Respond 200 (Send (dbinfo_page 0 MAX_DB_SIZE)).
Proof.
  intros w1 w2.
  assert (H1 : getFileSizeInBytes w1 = Some 2) by reflexivity.
  assert (H2 : getFileSizeInBytes w2 = Some 63) by reflexivity.
  split; [exact H1|]. split; [exact H2|].
  apply (dbinfo_small_files_look_alike w1 w2 2 63 H1); [lia | exact H2 | lia].
Defined.

(** ** Write, then delete *)

(** X14. Writing a valid value under a key that has no entry and deleting
    the key right after are both answered 200 and leave the document as it
    was before the write, whatever the key. *)
Theorem write_then_delete_restores (k : string) (v : json) (now : Z) (w : world) :
  readData w !! k = None →
  truthy v = true →
  byteLength (stringify v) <= MAX_JSON_SIZE →
  let w1 := snd (write_handler k (Some v) now w) in
  fst (write_handler k (Some v) now w)
    = Respond 200 (Send ("Data for user " ++ k ++ " has been written"))
  ∧ fst (delete_handler k w1)
    = Respond 200 (Send ("Data for user " ++ k ++ " has been deleted"))
  ∧ file (snd (delete_handler k w1)) = Some (readData w).
Proof.
  intros Hk Ht Hs w1. unfold w1. rewrite write_handler_accepted by done.
  cbn [fst snd]. split; [done|].
  set (w2 := writeData _ w).
  assert (Hd : delete k (readData w2) = readData w).
  { unfold w2. rewrite readData_writeData. unfold set_property.
    destruct (_ && _); [by apply delete_id|].
    rewrite delete_insert_eq. by apply delete_id. }
  assert (Hfound : ToBoolean (get_property w2 (readData w2) k) = true).
  { unfold w2. rewrite readData_writeData. unfold set_property, get_property.
    destruct (String.eqb_spec k "__proto__") as [->|Hne]; cbn [andb].
    - rewrite (bool_decide_eq_true_2 _ Hk), Hk. reflexivity.
    - by rewrite lookup_insert_eq. }
  unfold delete_handler. rewrite Hfound. cbn [fst snd writeData file].
  by rewrite Hd.
Qed.

Lemma write_then_delete_restores_witness :
  let w := writeData {[ "u2" := {| timeRemove := 50; data := JNum 2 |} ]} initial in
  let w1 := snd (write_handler "u1" (Some (JBool true)) 3 w) in
  fst (write_handler "u1" (Some (JBool true)) 3 w)
    = Respond 200 (Send ("Data for user " ++ "u1" ++ " has been written"))
  ∧ fst (delete_handler "u1" w1)
    = Respond 200 (Send ("Data for user " ++ "u1" ++ " has been deleted"))
  ∧ file (snd (delete_handler "u1" w1)) = Some (readData w).
Proof.
  intros w. apply (write_then_delete_restores "u1" (JBool true) 3 w).
  - reflexivity.
  - reflexivity.
  - vm_compute. discriminate.
Defined.
